(** * Console plugin reconciler

    A shallow embedding of
    [controllers/consoleplugin/consoleplugin_reconciler.go].

    Go's [error] values are ordinary return values, so every operation
    that can fail returns an [option error] ([None] is [nil]).  The
    cluster is an oracle: its reply to a call depends on the calls made
    so far.  Every call that leaves the reconciler (reads, writes, log
    lines) is appended to a chronological trace, which is what the
    theorems count. *)

From Stdlib Require Import ZArith Lia.
From stdpp Require Import base tactics option list strings gmap fin_maps.

Open Scope Z_scope.
Open Scope string_scope.
Open Scope list_scope.

(** ** Errors *)

Inductive error :=
| ErrNotFound (msg : string)
| ErrOther (msg : string).

#[global] Instance error_eq_dec : EqDecision error.
Proof. solve_decision. Defined.

(** [errors.IsNotFound] of k8s.io/apimachinery. *)
Definition IsNotFound (e : error) : bool :=
  match e with
  | ErrNotFound _ => true
  | ErrOther _ => false
  end.

(** A Go result pair [(value, err)] of a read. *)
Inductive result (A : Type) :=
| Ok (a : A)
| Failed (e : error).
Arguments Ok {A} a.
Arguments Failed {A} e.

(** ** Kubernetes object types (the fields the reconciler can see) *)

Module metav1.
Record ObjectMeta := {
  Name : string;
  Namespace : string;
  Labels : gmap string string;
  Annotations : gmap string string;
  ResourceVersion : string;
}.
#[global] Instance ObjectMeta_eq_dec : EqDecision ObjectMeta.
Proof. solve_decision. Defined.
Definition zero : ObjectMeta :=
  {| Name := ""; Namespace := ""; Labels := ∅; Annotations := ∅;
     ResourceVersion := "" |}.
End metav1.

Module corev1.
(** [Port] is an int32, [Protocol] a string type. *)
Record ServicePort := {
  PortName : string;
  Protocol : string;
  Port : Z;
  TargetPort : Z;
  NodePort : Z;
}.
#[global] Instance ServicePort_eq_dec : EqDecision ServicePort.
Proof. solve_decision. Defined.

Record Service := {
  ServiceMeta : metav1.ObjectMeta;
  Ports : list ServicePort;
  Selector : gmap string string;
  ClusterIP : string;
}.
#[global] Instance Service_eq_dec : EqDecision Service.
Proof. solve_decision. Defined.

Record ServiceAccount := {
  ServiceAccountMeta : metav1.ObjectMeta;
}.
#[global] Instance ServiceAccount_eq_dec : EqDecision ServiceAccount.
Proof. solve_decision. Defined.

(** [Data] is a [map[string]string]; [None] is the nil map. *)
Record ConfigMap := {
  ConfigMapMeta : metav1.ObjectMeta;
  Data : option (gmap string string);
}.
#[global] Instance ConfigMap_eq_dec : EqDecision ConfigMap.
Proof. solve_decision. Defined.

Record PodTemplateSpec := {
  TemplateMeta : metav1.ObjectMeta;
  Image : string;
  Env : list (string * string);
  ResourceRequests : gmap string Z;
  Args : list string;
}.
#[global] Instance PodTemplateSpec_eq_dec : EqDecision PodTemplateSpec.
Proof. solve_decision. Defined.

Definition zeroService : Service :=
  {| ServiceMeta := metav1.zero; Ports := []; Selector := ∅; ClusterIP := "" |}.
Definition zeroServiceAccount : ServiceAccount :=
  {| ServiceAccountMeta := metav1.zero |}.
Definition zeroConfigMap : ConfigMap :=
  {| ConfigMapMeta := metav1.zero; Data := None |}.
Definition zeroTemplate : PodTemplateSpec :=
  {| TemplateMeta := metav1.zero; Image := ""; Env := [];
     ResourceRequests := ∅; Args := [] |}.
End corev1.

Module appsv1.
Record Deployment := {
  DeploymentMeta : metav1.ObjectMeta;
  Replicas : Z;
  Template : corev1.PodTemplateSpec;
  StatusReadyReplicas : Z;
}.
#[global] Instance Deployment_eq_dec : EqDecision Deployment.
Proof. solve_decision. Defined.
Definition zero : Deployment :=
  {| DeploymentMeta := metav1.zero; Replicas := 0;
     Template := corev1.zeroTemplate; StatusReadyReplicas := 0 |}.
End appsv1.

Module ascv2.
Record HorizontalPodAutoscaler := {
  AutoscalerMeta : metav1.ObjectMeta;
  MinReplicas : Z;
  MaxReplicas : Z;
  Metrics : list string;
}.
#[global] Instance HorizontalPodAutoscaler_eq_dec :
  EqDecision HorizontalPodAutoscaler.
Proof. solve_decision. Defined.
Definition zero : HorizontalPodAutoscaler :=
  {| AutoscalerMeta := metav1.zero; MinReplicas := 0; MaxReplicas := 0;
     Metrics := [] |}.
End ascv2.

Module monitoringv1.
Record ServiceMonitor := {
  MonitorMeta : metav1.ObjectMeta;
  Endpoints : list string;
}.
#[global] Instance ServiceMonitor_eq_dec : EqDecision ServiceMonitor.
Proof. solve_decision. Defined.
Definition zero : ServiceMonitor :=
  {| MonitorMeta := metav1.zero; Endpoints := [] |}.
End monitoringv1.

Module osv1alpha1.
(** [Spec.Service] of a ConsolePlugin. *)
Record ConsolePluginService := {
  ServiceName : string;
  ServiceNamespace : string;
  Port : Z;
  BasePath : string;
}.
#[global] Instance ConsolePluginService_eq_dec :
  EqDecision ConsolePluginService.
Proof. solve_decision. Defined.

Record ConsolePlugin := {
  PluginMeta : metav1.ObjectMeta;
  DisplayName : string;
  Service : ConsolePluginService;
}.
#[global] Instance ConsolePlugin_eq_dec : EqDecision ConsolePlugin.
Proof. solve_decision. Defined.
Definition zero : ConsolePlugin :=
  {| PluginMeta := metav1.zero; DisplayName := "";
     Service := {| ServiceName := ""; ServiceNamespace := ""; Port := 0;
                   BasePath := "" |} |}.
End osv1alpha1.

Module operatorsv1.
(** The Console operator resource; [Plugins] is [Spec.Plugins]. *)
Record Console := {
  ConsoleMeta : metav1.ObjectMeta;
  Plugins : list string;
}.
#[global] Instance Console_eq_dec : EqDecision Console.
Proof. solve_decision. Defined.
Definition zero : Console := {| ConsoleMeta := metav1.zero; Plugins := [] |}.
End operatorsv1.

Module rbacv1.
Record ClusterRole := { RoleName : string; Rules : list string }.
Record ClusterRoleBinding := { BindingName : string; Subject : string }.
#[global] Instance ClusterRole_eq_dec : EqDecision ClusterRole.
Proof. solve_decision. Defined.
#[global] Instance ClusterRoleBinding_eq_dec : EqDecision ClusterRoleBinding.
Proof. solve_decision. Defined.
End rbacv1.

(** ** The desired specification (api/v1beta1) *)

Module flowslatest.
Definition HPAStatusDisabled : string := "DISABLED".
Definition HPAStatusEnabled : string := "ENABLED".

Record FlowCollectorHPA := {
  Status : string;
  MinReplicas : Z;
  MaxReplicas : Z;
  Metrics : list string;
}.

Record FlowCollectorConsolePlugin := {
  Register : bool;
  Replicas : Z;
  Port : Z;
  Autoscaler : FlowCollectorHPA;
  LogLevel : string;
}.

Record FlowCollectorLoki := {
  URL : string;
  QuerierURL : string;
  StatusURL : string;
}.

Record FlowCollectorSpec := {
  SpecNamespace : string;
  ConsolePlugin : FlowCollectorConsolePlugin;
  Loki : FlowCollectorLoki;
}.

Record FlowCollector := { Spec : FlowCollectorSpec }.
End flowslatest.

(** Type alias of the source. *)
Definition pluginSpec := flowslatest.FlowCollectorConsolePlugin.

(** ** Kinds and the tagged union of objects ([client.Object]) *)

Inductive Kind :=
| KDeployment | KService | KHPA | KServiceAccount | KConfigMap
| KServiceMonitor | KConsole | KConsolePlugin.

#[global] Instance Kind_eq_dec : EqDecision Kind.
Proof. solve_decision. Defined.

Definition objT (k : Kind) : Type :=
  match k with
  | KDeployment => appsv1.Deployment
  | KService => corev1.Service
  | KHPA => ascv2.HorizontalPodAutoscaler
  | KServiceAccount => corev1.ServiceAccount
  | KConfigMap => corev1.ConfigMap
  | KServiceMonitor => monitoringv1.ServiceMonitor
  | KConsole => operatorsv1.Console
  | KConsolePlugin => osv1alpha1.ConsolePlugin
  end.

Inductive Obj :=
| ODeployment (d : appsv1.Deployment)
| OService (s : corev1.Service)
| OHPA (h : ascv2.HorizontalPodAutoscaler)
| OServiceAccount (a : corev1.ServiceAccount)
| OConfigMap (c : corev1.ConfigMap)
| OServiceMonitor (m : monitoringv1.ServiceMonitor)
| OConsole (c : operatorsv1.Console)
| OConsolePlugin (p : osv1alpha1.ConsolePlugin).

#[global] Instance Obj_eq_dec : EqDecision Obj.
Proof. solve_decision. Defined.

Definition kindOf (o : Obj) : Kind :=
  match o with
  | ODeployment _ => KDeployment
  | OService _ => KService
  | OHPA _ => KHPA
  | OServiceAccount _ => KServiceAccount
  | OConfigMap _ => KConfigMap
  | OServiceMonitor _ => KServiceMonitor
  | OConsole _ => KConsole
  | OConsolePlugin _ => KConsolePlugin
  end.

Definition toObj (k : Kind) : objT k -> Obj :=
  match k with
  | KDeployment => ODeployment
  | KService => OService
  | KHPA => OHPA
  | KServiceAccount => OServiceAccount
  | KConfigMap => OConfigMap
  | KServiceMonitor => OServiceMonitor
  | KConsole => OConsole
  | KConsolePlugin => OConsolePlugin
  end.

(** ** Package [helper] *)

Module helper.
(** Modelled from the spec: [helper.ChangeReport] is not under src/.
    "ephemeral, created per reconciled resource kind, append-only list
    of strings". *)
Record ChangeReport := {
  Title : string;
  Reasons : list string;
}.
#[global] Instance ChangeReport_eq_dec : EqDecision ChangeReport.
Proof. solve_decision. Defined.

Definition NewChangeReport (title : string) : ChangeReport :=
  {| Title := title; Reasons := [] |}.

Definition Add (report : ChangeReport) (reason : string) : ChangeReport :=
  {| Title := Title report; Reasons := Reasons report ++ [reason] |}.

(** Modelled from the spec: [helper.ContainsString] is not under src/.
    It tells whether the unit's name is a member of the list. *)
Fixpoint ContainsString (slice : list string) (s : string) : bool :=
  match slice with
  | [] => false
  | item :: rest => if String.eqb item s then true else ContainsString rest s
  end.

(** Modelled from the spec: [helper.RemoveAllStrings] is not under src/.
    It removes the unit's name from the list (every occurrence). *)
Fixpoint RemoveAllStrings (slice : list string) (search : string) : list string :=
  match slice with
  | [] => []
  | v :: rest =>
      if String.eqb v search then RemoveAllStrings rest search
      else v :: RemoveAllStrings rest search
  end.

(** Modelled from the spec: [helper.HPADisabled] is not under src/.
    It tells whether autoscaling is disabled in the desired autoscaler
    policy. *)
Definition HPADisabled (spec : flowslatest.FlowCollectorHPA) : bool :=
  String.eqb (flowslatest.Status spec) flowslatest.HPAStatusDisabled.

(** Modelled from the spec: the pod part of the deployment comparator is
    not under src/.  "changed if any of: owner/container image,
    environment, resource requests, [...] pod template annotations
    (including the certificate-reference annotation), or other template
    fields recognized by the builder differ".  Of the template's metadata
    only the labels and the annotations are compared: the rest (resource
    version and the like) is what "the cluster mutates out-of-band". *)
Definition PodChanged (old new : corev1.PodTemplateSpec) : bool :=
  negb (bool_decide (metav1.Annotations (corev1.TemplateMeta old)
                     = metav1.Annotations (corev1.TemplateMeta new)))
  || negb (bool_decide (metav1.Labels (corev1.TemplateMeta old)
                        = metav1.Labels (corev1.TemplateMeta new)))
  || negb (String.eqb (corev1.Image old) (corev1.Image new))
  || negb (bool_decide (corev1.Env old = corev1.Env new))
  || negb (bool_decide (corev1.ResourceRequests old = corev1.ResourceRequests new))
  || negb (bool_decide (corev1.Args old = corev1.Args new)).

(** Modelled from the spec: [helper.DeploymentChanged] is not under src/.
    The pod template is compared; the replica count is compared only
    when [checkReplicas] holds, which the caller sets to "autoscaling
    is disabled".  Fields the cluster mutates out-of-band (status) are
    not read. *)
Definition DeploymentChanged (old new : appsv1.Deployment) (contName : string)
    (checkReplicas : bool) (desiredReplicas : Z) (report : ChangeReport)
  : bool * ChangeReport :=
  if PodChanged (appsv1.Template old) (appsv1.Template new)
  then (true, Add report "Pod changed")
  else if checkReplicas && negb (Z.eqb (appsv1.Replicas old) desiredReplicas)
  then (true, Add report "Replicas changed")
  else (false, report).
End helper.

(** ** Package [discover] *)

Module discover.
(** Modelled from the spec: [discover.AvailableAPIs] is not under src/.
    "a boolean capability query [...] evaluated once at startup and
    treated as static for the process lifetime". *)
Record AvailableAPIs := { svcMonitor : bool }.
Definition HasSvcMonitor (a : AvailableAPIs) : bool := svcMonitor a.
End discover.

(** ** Calls that leave the reconciler *)

Inductive Call :=
| CGet (k : Kind) (ns name : string)
| CCreateOwned (obj : Obj)
| CUpdateOwned (old new : Obj)
| CUpdate (obj : Obj)
| CDelete (obj : Obj)
| CAnnotatePod (tpl : corev1.PodTemplateSpec)
| CReconcileClusterRole (cr : rbacv1.ClusterRole)
| CReconcileClusterRoleBinding (crb : rbacv1.ClusterRoleBinding)
| CCheckDeploymentInProgress (d : appsv1.Deployment)
| CLogError (e : error) (msg : string)
| CLogIfNeeded (report : helper.ChangeReport).

#[global] Instance Call_eq_dec : EqDecision Call.
Proof. solve_decision. Defined.

(** The cluster as seen through the client: the reply to a call is a
    function of the calls made before it. *)
Record Cluster := {
  getReply : forall k : Kind, list Call -> string -> string -> result (objT k);
  writeReply : list Call -> Call -> option error;
  annotateReply :
    list Call -> corev1.PodTemplateSpec -> result corev1.PodTemplateSpec;
}.

(** ** Package [reconcilers]: the namespaced object manager *)

Module reconcilers.
Record managedObject := {
  name : string;
  kind : Kind;
  found : bool;
}.

Record NamespacedObjectManager := {
  Namespace : string;
  PreviousNamespace : string;
  managedObjects : list managedObject;
}.

Definition NewNamespacedObjectManager (ns prevNS : string)
  : NamespacedObjectManager :=
  {| Namespace := ns; PreviousNamespace := prevNS; managedObjects := [] |}.

(** Modelled from the spec: [AddManagedObject] is not under src/.
    "registers a resource kind (represented by a zero-value instance
    used for later fetch/type-dispatch) under the unit". *)
Definition AddManagedObject (m : NamespacedObjectManager) (ownerName : string)
    (k : Kind) : NamespacedObjectManager :=
  {| Namespace := Namespace m; PreviousNamespace := PreviousNamespace m;
     managedObjects :=
       managedObjects m ++ [{| name := ownerName; kind := k; found := false |}] |}.

Fixpoint lookupFound (objs : list managedObject) (k : Kind) : bool :=
  match objs with
  | [] => false
  | mo :: rest =>
      if bool_decide (kind mo = k) then found mo else lookupFound rest k
  end.

(** Modelled from the spec: [Exists] is not under src/.  "returns the
    cached existence boolean for that specific resource reference; O(1),
    no cluster call". *)
Definition Exists (m : NamespacedObjectManager) (k : Kind) : bool :=
  lookupFound (managedObjects m) k.

Definition markFound (objs : list managedObject) (k : Kind) (b : bool)
  : list managedObject :=
  map (fun mo =>
         if bool_decide (kind mo = k)
         then {| name := name mo; kind := kind mo; found := b |}
         else mo) objs.

Definition registered (m : NamespacedObjectManager) : list Kind :=
  map kind (managedObjects m).
End reconcilers.

(** ** The reconciler *)

Record ownedObjects := {
  deployment : appsv1.Deployment;
  service : corev1.Service;
  hpa : ascv2.HorizontalPodAutoscaler;
  serviceAccount : corev1.ServiceAccount;
  configMap : corev1.ConfigMap;
  serviceMonitor : monitoringv1.ServiceMonitor;
}.

Record CPReconciler := {
  nobjMngr : reconcilers.NamespacedObjectManager;
  owned : ownedObjects;
  image : string;
  availableAPIs : discover.AvailableAPIs;
}.

(** The placeholder of kind [k] in [owned] is overwritten by a fetch. *)
Definition setOwned (k : Kind) : objT k -> ownedObjects -> ownedObjects :=
  match k with
  | KDeployment => fun d o =>
      {| deployment := d; service := service o; hpa := hpa o;
         serviceAccount := serviceAccount o; configMap := configMap o;
         serviceMonitor := serviceMonitor o |}
  | KService => fun s o =>
      {| deployment := deployment o; service := s; hpa := hpa o;
         serviceAccount := serviceAccount o; configMap := configMap o;
         serviceMonitor := serviceMonitor o |}
  | KHPA => fun h o =>
      {| deployment := deployment o; service := service o; hpa := h;
         serviceAccount := serviceAccount o; configMap := configMap o;
         serviceMonitor := serviceMonitor o |}
  | KServiceAccount => fun a o =>
      {| deployment := deployment o; service := service o; hpa := hpa o;
         serviceAccount := a; configMap := configMap o;
         serviceMonitor := serviceMonitor o |}
  | KConfigMap => fun c o =>
      {| deployment := deployment o; service := service o; hpa := hpa o;
         serviceAccount := serviceAccount o; configMap := c;
         serviceMonitor := serviceMonitor o |}
  | KServiceMonitor => fun m o =>
      {| deployment := deployment o; service := service o; hpa := hpa o;
         serviceAccount := serviceAccount o; configMap := configMap o;
         serviceMonitor := m |}
  | KConsole => fun _ o => o
  | KConsolePlugin => fun _ o => o
  end.

(** State of a pass: the receiver [r] and the chronological trace. *)
Record St := {
  self : CPReconciler;
  calls : list Call;
}.

Definition M (A : Type) : Type := St -> A * St.

Definition ret {A} (a : A) : M A := fun s => (a, s).

Definition bind {A B} (m : M A) (f : A -> M B) : M B :=
  fun s => let (a, s') := m s in f a s'.

Notation "'let!' x ':=' m 'in' k" := (bind m (fun x => k))
  (at level 10, x pattern, m at level 100, k at level 200, only parsing).
Notation "m '>>' k" := (bind m (fun _ => k))
  (at level 65, right associativity, only parsing).

Definition getSelf : M CPReconciler := fun s => (self s, s).

Definition putSelf (r : CPReconciler) : M unit :=
  fun s => (tt, {| self := r; calls := calls s |}).

Definition emit (c : Call) : M unit :=
  fun s => (tt, {| self := self s; calls := calls s ++ [c] |}).

(** The calls a computation adds to the trace. *)
Definition trace_of {A} (m : M A) (s : St) : list Call :=
  drop (length (calls s)) (calls (snd (m s))).

Definition returned {A} (m : M A) (s : St) : A := fst (m s).

(** Go's [error]: [None] is [nil]. *)
Definition goerror := option error.

(** [if err != nil { return err }] *)
Notation "'check!' m 'in' k" :=
  (bind m (fun err => match err with
                      | Some e => ret (Some e)
                      | None => k
                      end))
  (at level 10, m at level 100, k at level 200, only parsing).

(** ** The builder (an external collaborator: pure constructors) *)

Module Builder.
Record t := {
  serviceAccount : corev1.ServiceAccount;
  clusterRoleBinding : rbacv1.ClusterRoleBinding;
  consolePlugin : osv1alpha1.ConsolePlugin;
  configMap : corev1.ConfigMap * string;
  deployment : string -> appsv1.Deployment;
  service : option corev1.Service -> corev1.Service;
  serviceMonitor : monitoringv1.ServiceMonitor;
  autoScaler : ascv2.HorizontalPodAutoscaler;
}.
End Builder.

(** What the reconciler is linked against and src/ does not define:
    constants, the builder constructors, the cluster behind the client
    and the comparators of [helper] whose bodies are left abstract. *)
Record Env := {
  PluginName : string;
  configMapName : string;
  cluster : Cluster;
  newBuilder : string -> string -> flowslatest.FlowCollectorSpec -> Builder.t;
  buildClusterRole : rbacv1.ClusterRole;
  AutoScalerChanged :
    ascv2.HorizontalPodAutoscaler -> flowslatest.FlowCollectorHPA ->
    helper.ChangeReport -> bool * helper.ChangeReport;
  ServiceMonitorChanged :
    monitoringv1.ServiceMonitor -> monitoringv1.ServiceMonitor ->
    helper.ChangeReport -> bool * helper.ChangeReport;
}.

(** ** [reflect.DeepEqual] on [map[string]string]

    As the Go runtime does it: both nil or both non-nil, the same
    length, and every key of the first maps to an equal value in the
    second. *)
Definition DeepEqual (m1 m2 : option (gmap string string)) : bool :=
  match m1, m2 with
  | None, None => true
  | Some a, Some b =>
      bool_decide (size a = size b)
      && forallb (fun kv => bool_decide (b !! kv.1 = Some kv.2)) (map_to_list a)
  | _, _ => false
  end.

(** ** Pure functions of the source *)

Definition pluginNeedsUpdate (plg : osv1alpha1.ConsolePlugin) (desired : pluginSpec)
  : bool :=
  negb (Z.eqb (osv1alpha1.Port (osv1alpha1.Service plg)) (flowslatest.Port desired)).

Definition querierURL (loki : flowslatest.FlowCollectorLoki) : string :=
  if negb (String.eqb (flowslatest.QuerierURL loki) "")
  then flowslatest.QuerierURL loki
  else flowslatest.URL loki.

Definition statusURL (loki : flowslatest.FlowCollectorLoki) : string :=
  if negb (String.eqb (flowslatest.StatusURL loki) "")
  then flowslatest.StatusURL loki
  else querierURL loki.

(** The [range] loop of [serviceNeedsUpdate]: [true] when it returns early. *)
Fixpoint portMatches (ports : list corev1.ServicePort) (desired : pluginSpec)
  : bool :=
  match ports with
  | [] => false
  | port :: rest =>
      if Z.eqb (corev1.Port port) (flowslatest.Port desired)
         && String.eqb (corev1.Protocol port) "TCP"
      then true
      else portMatches rest desired
  end.

Definition serviceNeedsUpdate (svc : corev1.Service) (desired : pluginSpec)
    (report : helper.ChangeReport) : bool * helper.ChangeReport :=
  if portMatches (corev1.Ports svc) desired
  then (false, report)
  else (true, helper.Add report "Port changed").

(** ** Counting calls in a trace *)

Definition isCreate (k : Kind) (c : Call) : bool :=
  match c with
  | CCreateOwned obj => bool_decide (kindOf obj = k)
  | _ => false
  end.

Definition isUpdate (k : Kind) (c : Call) : bool :=
  match c with
  | CUpdateOwned _ new => bool_decide (kindOf new = k)
  | CUpdate obj => bool_decide (kindOf obj = k)
  | _ => false
  end.

Definition isDelete (k : Kind) (c : Call) : bool :=
  match c with
  | CDelete obj => bool_decide (kindOf obj = k)
  | _ => false
  end.

Definition isGet (k : Kind) (c : Call) : bool :=
  match c with
  | CGet k' _ _ => bool_decide (k' = k)
  | _ => false
  end.

Definition isLog (c : Call) : bool :=
  match c with
  | CLogError _ _ => true
  | _ => false
  end.

(** Any call of the client that names an object of kind [k]. *)
Definition touches (k : Kind) (c : Call) : bool :=
  isGet k c || isCreate k c || isUpdate k c || isDelete k c.

Fixpoint count (p : Call -> bool) (l : list Call) : nat :=
  match l with
  | [] => 0%nat
  | c :: rest => ((if p c then 1 else 0) + count p rest)%nat
  end.

Section Reconciler.
Context (env : Env).

(** *** The client helper: one trace entry per call *)

Definition record (c : Call) (s : St) : St :=
  {| self := self s; calls := calls s ++ [c] |}.

Definition Get (k : Kind) (ns name : string) : M (result (objT k)) :=
  fun s => (getReply (cluster env) k (calls s) ns name, record (CGet k ns name) s).

Definition write (c : Call) : M goerror :=
  fun s => (writeReply (cluster env) (calls s) c, record c s).

Definition CreateOwned (obj : Obj) : M goerror := write (CCreateOwned obj).
Definition UpdateOwned (old new : Obj) : M goerror := write (CUpdateOwned old new).
Definition Update (obj : Obj) : M goerror := write (CUpdate obj).
Definition Delete (obj : Obj) : M goerror := write (CDelete obj).
Definition ReconcileClusterRole (cr : rbacv1.ClusterRole) : M goerror :=
  write (CReconcileClusterRole cr).
Definition ReconcileClusterRoleBinding (crb : rbacv1.ClusterRoleBinding)
  : M goerror :=
  write (CReconcileClusterRoleBinding crb).

(** [CertWatcher.AnnotatePod] mutates the template in place and may fail. *)
Definition AnnotatePod (tpl : corev1.PodTemplateSpec)
  : M (result corev1.PodTemplateSpec) :=
  fun s => (annotateReply (cluster env) (calls s) tpl, record (CAnnotatePod tpl) s).

Definition CheckDeploymentInProgress (d : appsv1.Deployment) : M unit :=
  emit (CCheckDeploymentInProgress d).
Definition LogError (e : error) (msg : string) : M unit := emit (CLogError e msg).
Definition LogIfNeeded (report : helper.ChangeReport) : M unit :=
  emit (CLogIfNeeded report).

(** [defer report.LogIfNeeded(ctx)]: the body hands back the report as
    it stands when the function returns. *)
Definition deferLogIfNeeded {A} (body : M (A * helper.ChangeReport)) : M A :=
  let! out := body in
  LogIfNeeded out.2 >> ret out.1.

(** *** The object manager against the cluster *)

Definition setFound (k : Kind) (b : bool) : M unit :=
  let! r := getSelf in
  let m := nobjMngr r in
  putSelf
    {| nobjMngr :=
         {| reconcilers.Namespace := reconcilers.Namespace m;
            reconcilers.PreviousNamespace := reconcilers.PreviousNamespace m;
            reconcilers.managedObjects :=
              reconcilers.markFound (reconcilers.managedObjects m) k b |};
       owned := owned r; image := image r; availableAPIs := availableAPIs r |}.

Definition store (k : Kind) (o : objT k) : M unit :=
  let! r := getSelf in
  putSelf
    {| nobjMngr := nobjMngr r; owned := setOwned k o (owned r);
       image := image r; availableAPIs := availableAPIs r |}.

Fixpoint fetchLoop (ns : string) (objs : list reconcilers.managedObject)
  : M goerror :=
  match objs with
  | [] => ret None
  | mo :: rest =>
      let k := reconcilers.kind mo in
      let! got := Get k ns (reconcilers.name mo) in
      match got with
      | Ok o => store k o >> setFound k true >> fetchLoop ns rest
      | Failed err =>
          if IsNotFound err
          then setFound k false >> fetchLoop ns rest
          else ret (Some err)
      end
  end.

(** Modelled from the spec: [FetchAll] is not under src/.  "for every
    registered kind, attempts to read the object at (namespace,
    ownerName) from the cluster; a not-found result is recorded as
    'does not exist' (not an error); any other read error aborts the
    whole fetch with that error". *)
Definition FetchAll : M goerror :=
  let! r := getSelf in
  fetchLoop (reconcilers.Namespace (nobjMngr r))
            (reconcilers.managedObjects (nobjMngr r)).

(** Modelled from the spec: [TryDelete] is not under src/.  "deletes a
    resource if it currently exists; not-found is treated as success
    (idempotent delete)".  It returns nothing. *)
Definition TryDelete (k : Kind) (obj : Obj) : M unit :=
  let! r := getSelf in
  if reconcilers.Exists (nobjMngr r) k
  then Delete obj >> ret tt
  else ret tt.

(** Modelled from the spec: [reconcilers.GenericReconcile] is not under
    src/.  "delegates to a supplied change predicate and performs
    create/update through one shared code path": create if absent,
    update if changed. *)
Definition GenericReconcile (k : Kind) (old new : objT k)
    (report : helper.ChangeReport)
    (changeFunc : objT k -> objT k -> helper.ChangeReport ->
                  bool * helper.ChangeReport)
  : M (goerror * helper.ChangeReport) :=
  let! r := getSelf in
  if negb (reconcilers.Exists (nobjMngr r) k)
  then let! err := CreateOwned (toObj k new) in ret (err, report)
  else
    let chg := changeFunc old new report in
    if chg.1
    then let! err := UpdateOwned (toObj k old) (toObj k new) in ret (err, chg.2)
    else ret (None, chg.2).

(** *** [NewReconciler] *)

Definition NewReconciler (ns prevNS imageName : string)
    (apis : discover.AvailableAPIs) : CPReconciler :=
  let owned :=
    {| deployment := appsv1.zero; service := corev1.zeroService;
       hpa := ascv2.zero; serviceAccount := corev1.zeroServiceAccount;
       configMap := corev1.zeroConfigMap;
       serviceMonitor := monitoringv1.zero |} in
  let nobjMngr := reconcilers.NewNamespacedObjectManager ns prevNS in
  let nobjMngr := reconcilers.AddManagedObject nobjMngr (PluginName env) KDeployment in
  let nobjMngr := reconcilers.AddManagedObject nobjMngr (PluginName env) KService in
  let nobjMngr := reconcilers.AddManagedObject nobjMngr (PluginName env) KHPA in
  let nobjMngr := reconcilers.AddManagedObject nobjMngr (PluginName env) KServiceAccount in
  let nobjMngr := reconcilers.AddManagedObject nobjMngr (configMapName env) KConfigMap in
  let nobjMngr :=
    if discover.HasSvcMonitor apis
    then reconcilers.AddManagedObject nobjMngr (PluginName env) KServiceMonitor
    else nobjMngr in
  {| nobjMngr := nobjMngr; owned := owned; image := imageName;
     availableAPIs := apis |}.

(** *** [checkAutoPatch] *)

Definition registerManually : string :=
  "Could not get the Console Operator resource for plugin registration. Please register manually.".

Definition checkAutoPatch (desired : flowslatest.FlowCollector) : M goerror :=
  let register :=
    flowslatest.Register (flowslatest.ConsolePlugin (flowslatest.Spec desired)) in
  let! got := Get KConsole "" "cluster" in
  match got with
  | Failed err =>
      (if register
       then LogError err registerManually
       else ret tt) >>
      ret None
  | Ok console =>
      let registered :=
        helper.ContainsString (operatorsv1.Plugins console) (PluginName env) in
      if register && negb registered then
        Update (OConsole
                  {| operatorsv1.ConsoleMeta := operatorsv1.ConsoleMeta console;
                     operatorsv1.Plugins :=
                       operatorsv1.Plugins console ++ [PluginName env] |})
      else if negb register && registered then
        Update (OConsole
                  {| operatorsv1.ConsoleMeta := operatorsv1.ConsoleMeta console;
                     operatorsv1.Plugins :=
                       helper.RemoveAllStrings (operatorsv1.Plugins console)
                                               (PluginName env) |})
      else ret None
  end.

(** *** [reconcilePermissions] *)

Definition reconcilePermissions (builder : Builder.t) : M goerror :=
  let! r := getSelf in
  if negb (reconcilers.Exists (nobjMngr r) KServiceAccount)
  then CreateOwned (OServiceAccount (Builder.serviceAccount builder))
  else
    let cr := buildClusterRole env in
    check! ReconcileClusterRole cr in
    let desired := Builder.clusterRoleBinding builder in
    check! ReconcileClusterRoleBinding desired in
    ret None.

(** *** [reconcilePlugin] *)

Definition reconcilePlugin (builder : Builder.t)
    (desired : flowslatest.FlowCollectorSpec) : M goerror :=
  let! got := Get KConsolePlugin "" (PluginName env) in
  let '(oldPlg, pluginExists, err) :=
    match got with
    | Ok plg => (plg, true, None)
    | Failed err =>
        if IsNotFound err
        then (osv1alpha1.zero, false, None)
        else (osv1alpha1.zero, true, Some err)
    end in
  match err with
  | Some err => ret (Some err)
  | None =>
      let consolePlugin := Builder.consolePlugin builder in
      if negb pluginExists then
        check! CreateOwned (OConsolePlugin consolePlugin) in
        ret None
      else if pluginNeedsUpdate oldPlg (flowslatest.ConsolePlugin desired) then
        check! UpdateOwned (OConsolePlugin oldPlg) (OConsolePlugin consolePlugin) in
        ret None
      else ret None
  end.

(** *** [reconcileConfigMap] *)

Definition reconcileConfigMap (builder : Builder.t)
    (desired : flowslatest.FlowCollectorSpec) : M (string * goerror) :=
  let! r := getSelf in
  let '(newCM, configDigest) := Builder.configMap builder in
  if negb (reconcilers.Exists (nobjMngr r) KConfigMap) then
    let! err := CreateOwned (OConfigMap newCM) in
    match err with
    | Some err => ret ("", Some err)
    | None => ret (configDigest, None)
    end
  else if negb (DeepEqual (corev1.Data newCM) (corev1.Data (configMap (owned r)))) then
    let! err := UpdateOwned (OConfigMap (configMap (owned r))) (OConfigMap newCM) in
    match err with
    | Some err => ret ("", Some err)
    | None => ret (configDigest, None)
    end
  else ret (configDigest, None).

(** *** [reconcileDeployment] *)

Definition withTemplate (d : appsv1.Deployment) (tpl : corev1.PodTemplateSpec)
  : appsv1.Deployment :=
  {| appsv1.DeploymentMeta := appsv1.DeploymentMeta d;
     appsv1.Replicas := appsv1.Replicas d;
     appsv1.Template := tpl;
     appsv1.StatusReadyReplicas := appsv1.StatusReadyReplicas d |}.

Definition reconcileDeployment (builder : Builder.t)
    (desired : flowslatest.FlowCollectorSpec) (cmDigest : string) : M goerror :=
  deferLogIfNeeded (
    let report := helper.NewChangeReport "Console deployment" in
    let! r := getSelf in
    let newDepl := Builder.deployment builder cmDigest in
    let! annotated := AnnotatePod (appsv1.Template newDepl) in
    match annotated with
    | Failed err => ret (Some err, report)
    | Ok tpl =>
        let newDepl := withTemplate newDepl tpl in
        if negb (reconcilers.Exists (nobjMngr r) KDeployment) then
          let! err := CreateOwned (ODeployment newDepl) in
          ret (err, report)
        else
          let chg :=
            helper.DeploymentChanged (deployment (owned r)) newDepl (PluginName env)
              (helper.HPADisabled
                 (flowslatest.Autoscaler (flowslatest.ConsolePlugin desired)))
              (flowslatest.Replicas (flowslatest.ConsolePlugin desired)) report in
          if chg.1 then
            let! err := UpdateOwned (ODeployment (deployment (owned r)))
                                    (ODeployment newDepl) in
            ret (err, chg.2)
          else
            CheckDeploymentInProgress (deployment (owned r)) >>
            ret (None, chg.2)
    end).

(** *** [reconcileService] *)

Definition reconcileService (builder : Builder.t)
    (desired : flowslatest.FlowCollectorSpec) : M goerror :=
  deferLogIfNeeded (
    let report := helper.NewChangeReport "Console service" in
    let! r := getSelf in
    let! first :=
      if negb (reconcilers.Exists (nobjMngr r) KService) then
        let newSVC := Builder.service builder None in
        let! err := CreateOwned (OService newSVC) in
        ret (err, report)
      else
        let chg := serviceNeedsUpdate (service (owned r))
                     (flowslatest.ConsolePlugin desired) report in
        if chg.1 then
          let newSVC := Builder.service builder (Some (service (owned r))) in
          let! err := UpdateOwned (OService (service (owned r))) (OService newSVC) in
          ret (err, chg.2)
        else ret (None, chg.2) in
    match first.1 with
    | Some err => ret (Some err, first.2)
    | None =>
        if discover.HasSvcMonitor (availableAPIs r) then
          let serviceMonitor' := Builder.serviceMonitor builder in
          let! out := GenericReconcile KServiceMonitor (serviceMonitor (owned r))
                        serviceMonitor' first.2 (ServiceMonitorChanged env) in
          match out.1 with
          | Some err => ret (Some err, out.2)
          | None => ret (None, out.2)
          end
        else ret (None, first.2)
    end).

(** *** [reconcileHPA] *)

Definition reconcileHPA (builder : Builder.t)
    (desired : flowslatest.FlowCollectorSpec) : M goerror :=
  deferLogIfNeeded (
    let report := helper.NewChangeReport "Console autoscaler" in
    let! r := getSelf in
    let autoscaler := flowslatest.Autoscaler (flowslatest.ConsolePlugin desired) in
    if helper.HPADisabled autoscaler then
      TryDelete KHPA (OHPA (hpa (owned r))) >>
      ret (None, report)
    else
      let newASC := Builder.autoScaler builder in
      if negb (reconcilers.Exists (nobjMngr r) KHPA) then
        let! err := CreateOwned (OHPA newASC) in
        ret (err, report)
      else
        let chg := AutoScalerChanged env (hpa (owned r)) autoscaler report in
        if chg.1 then
          let! err := UpdateOwned (OHPA (hpa (owned r))) (OHPA newASC) in
          ret (err, chg.2)
        else ret (None, chg.2)).

(** *** [Reconcile], the entry point *)

Definition Reconcile (desired : flowslatest.FlowCollector) : M goerror :=
  let! r := getSelf in
  let ns := reconcilers.Namespace (nobjMngr r) in
  check! FetchAll in
  check! checkAutoPatch desired in
  let builder := newBuilder env ns (image r) (flowslatest.Spec desired) in
  check! reconcilePermissions builder in
  check! reconcilePlugin builder (flowslatest.Spec desired) in
  let! cm := reconcileConfigMap builder (flowslatest.Spec desired) in
  let cmDigest := cm.1 in
  match cm.2 with
  | Some err => ret (Some err)
  | None =>
      check! reconcileDeployment builder (flowslatest.Spec desired) cmDigest in
      check! reconcileService builder (flowslatest.Spec desired) in
      check! reconcileHPA builder (flowslatest.Spec desired) in
      ret None
  end.

End Reconciler.

(** ** A pass as a list of steps *)

(** Runs the steps in list order and stops at the first non-nil error. *)
Fixpoint runSteps (steps : list (M goerror)) : M goerror :=
  match steps with
  | [] => ret None
  | step :: rest => check! step in runSteps rest
  end.

(** The steps of [Reconcile] for the receiver [r], in the order of the
    source.  The deployment step is given the digest that the builder's
    [configMap] hands to the config-map step. *)
Definition stepsOf (env : Env) (desired : flowslatest.FlowCollector)
    (r : CPReconciler) : list (M goerror) :=
  let ns := reconcilers.Namespace (nobjMngr r) in
  let spec := flowslatest.Spec desired in
  let builder := newBuilder env ns (image r) spec in
  [ FetchAll env;
    checkAutoPatch env desired;
    reconcilePermissions env builder;
    reconcilePlugin env builder spec;
    (let! cm := reconcileConfigMap env builder spec in ret cm.2);
    reconcileDeployment env builder spec (Builder.configMap builder).2;
    reconcileService env builder spec;
    reconcileHPA env builder spec ].

(** Successive passes of one reconciler instance. *)
Fixpoint passes (env : Env) (desireds : list flowslatest.FlowCollector)
  : M (list goerror) :=
  match desireds with
  | [] => ret []
  | desired :: rest =>
      let! err := Reconcile env desired in
      let! errs := passes env rest in
      ret (err :: errs)
  end.

(** ** Vocabulary of the properties *)

(** An existing port entry matches the desired port number with TCP. *)
Definition portEntryMatches (svc : corev1.Service) (desired : pluginSpec) : Prop :=
  exists port, port ∈ corev1.Ports svc /\
    corev1.Port port = flowslatest.Port desired /\
    corev1.Protocol port = "TCP".

(** Equality of two [map[string]string] values as mappings: the same
    nil-ness and the same value under every key. *)
Definition sameMapping (m1 m2 : option (gmap string string)) : Prop :=
  match m1, m2 with
  | None, None => True
  | Some a, Some b => forall k : string, a !! k = b !! k
  | _, _ => False
  end.

(** The calls of a deployment write carry a deployment built from [digest]. *)
Definition builtFromDigest (builder : Builder.t) (digest : string) (c : Call)
  : Prop :=
  match c with
  | CCreateOwned (ODeployment d) | CUpdateOwned _ (ODeployment d) =>
      exists tpl, d = withTemplate (Builder.deployment builder digest) tpl
  | _ => True
  end.

(** From a receiver satisfying [I], [m] keeps [I], only appends to the
    trace, and every call it appends satisfies [P]. *)
Definition stepSpec (I : CPReconciler -> Prop) (P : Call -> Prop) {A} (m : M A)
  : Prop :=
  forall s, I (self s) ->
    I (self (m s).2) /\
    exists t, calls (m s).2 = calls s ++ t /\ Forall P t.

(** A failed read of the Console resource is tolerated "by logging and
    returning nil". *)
Definition readFailureLogged (env : Env) (desired : flowslatest.FlowCollector)
    (s : St) : Prop :=
  forall err,
    getReply (cluster env) KConsole (calls s) "" "cluster" = Failed err ->
    returned (checkAutoPatch env desired) s = None /\
    CLogError err registerManually ∈ trace_of (checkAutoPatch env desired) s.

(** A kind recorded as absent gets exactly one create and no update from
    its step. *)
Definition absentCreatesOnce (k : Kind) (step : M goerror) (s : St) : Prop :=
  reconcilers.Exists (nobjMngr (self s)) k = false ->
  count (isCreate k) (trace_of step s) = 1%nat /\
  count (isUpdate k) (trace_of step s) = 0%nat.

(** The receiver knows no service monitor: discovery reported the kind
    unsupported and the object manager has no entry for it. *)
Definition noMonitor (r : CPReconciler) : Prop :=
  discover.HasSvcMonitor (availableAPIs r) = false /\
  KServiceMonitor ∉ reconcilers.registered (nobjMngr r).

(** The state of a fresh reconciler before its first pass. *)
Definition initial (r : CPReconciler) : St := {| self := r; calls := [] |}.

(** ** Sample inputs *)

Module Sample.
Definition meta (n ns : string) : metav1.ObjectMeta :=
  {| metav1.Name := n; metav1.Namespace := ns; metav1.Labels := ∅;
     metav1.Annotations := ∅; metav1.ResourceVersion := "1" |}.

Definition port9001 : corev1.ServicePort :=
  {| corev1.PortName := "main"; corev1.Protocol := "TCP"; corev1.Port := 9001;
     corev1.TargetPort := 9001; corev1.NodePort := 0 |}.

Definition svc : corev1.Service :=
  {| corev1.ServiceMeta := meta "netobserv-plugin" "netobserv";
     corev1.Ports := [port9001]; corev1.Selector := ∅;
     corev1.ClusterIP := "10.0.0.7" |}.

Definition template : corev1.PodTemplateSpec :=
  {| corev1.TemplateMeta := meta "" "";
     corev1.Image := "quay.io/netobserv/plugin:main";
     corev1.Env := []; corev1.ResourceRequests := ∅; corev1.Args := [] |}.

Definition depl (replicas : Z) : appsv1.Deployment :=
  {| appsv1.DeploymentMeta := meta "netobserv-plugin" "netobserv";
     appsv1.Replicas := replicas; appsv1.Template := template;
     appsv1.StatusReadyReplicas := 1 |}.

Definition asc : ascv2.HorizontalPodAutoscaler :=
  {| ascv2.AutoscalerMeta := meta "netobserv-plugin" "netobserv";
     ascv2.MinReplicas := 1; ascv2.MaxReplicas := 3; ascv2.Metrics := [] |}.

Definition account : corev1.ServiceAccount :=
  {| corev1.ServiceAccountMeta := meta "netobserv-plugin" "netobserv" |}.

Definition cm (data : option (gmap string string)) : corev1.ConfigMap :=
  {| corev1.ConfigMapMeta := meta "console-plugin-config" "netobserv";
     corev1.Data := data |}.

Definition monitor : monitoringv1.ServiceMonitor :=
  {| monitoringv1.MonitorMeta := meta "netobserv-plugin" "netobserv";
     monitoringv1.Endpoints := ["main"] |}.

Definition plugin (ns : string) (port : Z) : osv1alpha1.ConsolePlugin :=
  {| osv1alpha1.PluginMeta := meta "netobserv-plugin" "";
     osv1alpha1.DisplayName := "NetObserv plugin";
     osv1alpha1.Service :=
       {| osv1alpha1.ServiceName := "netobserv-plugin";
          osv1alpha1.ServiceNamespace := ns; osv1alpha1.Port := port;
          osv1alpha1.BasePath := "/" |} |}.

Definition console (plugins : list string) : operatorsv1.Console :=
  {| operatorsv1.ConsoleMeta := meta "cluster" "";
     operatorsv1.Plugins := plugins |}.

Definition data1 : gmap string string := {[ "config.yaml" := "portNaming: {}" ]}.

Definition builder : Builder.t :=
  {| Builder.serviceAccount := account;
     Builder.clusterRoleBinding :=
       {| rbacv1.BindingName := "netobserv-plugin"; rbacv1.Subject := "netobserv-plugin" |};
     Builder.consolePlugin := plugin "netobserv" 9001;
     Builder.configMap := (cm (Some data1), "digest-1");
     Builder.deployment := fun digest =>
       {| appsv1.DeploymentMeta := meta "netobserv-plugin" "netobserv";
          appsv1.Replicas := 1;
          appsv1.Template :=
            {| corev1.TemplateMeta :=
                 {| metav1.Name := ""; metav1.Namespace := ""; metav1.Labels := ∅;
                    metav1.Annotations := {[ "flows.netobserv.io/config-digest" := digest ]};
                    metav1.ResourceVersion := "" |};
               corev1.Image := "quay.io/netobserv/plugin:main";
               corev1.Env := []; corev1.ResourceRequests := ∅; corev1.Args := [] |};
          appsv1.StatusReadyReplicas := 0 |};
     Builder.service := fun _ => svc;
     Builder.serviceMonitor := monitor;
     Builder.autoScaler := asc |}.

(** Every kind is present in the cluster. *)
Definition present (plugins : list string) (k : Kind) : result (objT k) :=
  match k with
  | KDeployment => Ok (depl 1)
  | KService => Ok svc
  | KHPA => Ok asc
  | KServiceAccount => Ok account
  | KConfigMap => Ok (cm (Some data1))
  | KServiceMonitor => Ok monitor
  | KConsole => Ok (console plugins)
  | KConsolePlugin => Ok (plugin "netobserv" 9001)
  end.

(** No kind is present; the Console resource cannot be read. *)
Definition absent (k : Kind) : result (objT k) :=
  match k with
  | KConsole => Failed (ErrOther "connection refused")
  | _ => Failed (ErrNotFound "not found")
  end.

Definition clusterOf (get : forall k : Kind, result (objT k))
    (failure : goerror) : Cluster :=
  {| getReply := fun k _ _ _ => get k;
     writeReply := fun _ _ => failure;
     annotateReply := fun _ tpl => Ok tpl |}.

Definition envOf (c : Cluster) : Env :=
  {| PluginName := "netobserv-plugin";
     configMapName := "console-plugin-config";
     cluster := c;
     newBuilder := fun _ _ _ => builder;
     buildClusterRole := {| rbacv1.RoleName := "netobserv-plugin"; rbacv1.Rules := [] |};
     AutoScalerChanged := fun _ _ report => (false, report);
     ServiceMonitorChanged := fun _ _ report => (false, report) |}.

Definition hpaSpec (status : string) : flowslatest.FlowCollectorHPA :=
  {| flowslatest.Status := status; flowslatest.MinReplicas := 1;
     flowslatest.MaxReplicas := 3; flowslatest.Metrics := [] |}.

Definition desired (register : bool) (replicas port : Z) (status : string)
  : flowslatest.FlowCollector :=
  {| flowslatest.Spec :=
       {| flowslatest.SpecNamespace := "netobserv";
          flowslatest.ConsolePlugin :=
            {| flowslatest.Register := register; flowslatest.Replicas := replicas;
               flowslatest.Port := port; flowslatest.Autoscaler := hpaSpec status;
               flowslatest.LogLevel := "info" |};
          flowslatest.Loki :=
            {| flowslatest.URL := "http://loki:3100/"; flowslatest.QuerierURL := "";
               flowslatest.StatusURL := "" |} |} |}.

(** The state after the fetch of a pass on cluster [c]. *)
Definition fetched (c : Cluster) (monitoring : bool) : St :=
  (FetchAll (envOf c)
     (initial (NewReconciler (envOf c) "netobserv" "" "plugin:main"
                 {| discover.svcMonitor := monitoring |}))).2.
(** The state of a fresh reconciler on cluster [c]. *)
Definition start (c : Cluster) (monitoring : bool) : St :=
  initial (NewReconciler (envOf c) "netobserv" "" "plugin:main"
             {| discover.svcMonitor := monitoring |}).

(** Everything is present, writes succeed, the certificate watcher fails. *)
Definition noCertificate : Cluster :=
  {| getReply := fun k _ _ _ => present [] k;
     writeReply := fun _ _ => None;
     annotateReply := fun _ _ => Failed (ErrOther "no certificate") |}.
(** The Console resource lists the plugin twice until something has
    been written; afterwards it reads back without it. *)
Definition rereads : Cluster :=
  {| getReply := fun k h _ _ =>
       match h with
       | [] => present ["netobserv-plugin"; "other"; "netobserv-plugin"] k
       | _ => present ["other"] k
       end;
     writeReply := fun _ _ => None;
     annotateReply := fun _ tpl => Ok tpl |}.
End Sample.

(** ** Vocabulary of the further properties *)

Definition isReport (c : Call) : bool :=
  match c with
  | CLogIfNeeded _ => true
  | _ => false
  end.

(** The write [reconcileService] issues for the service itself, if any:
    a create when the cache has no service, an update built from the
    cached service when no port entry matches. *)
Definition serviceWrite (builder : Builder.t)
    (desired : flowslatest.FlowCollectorSpec) (s : St) : option Call :=
  if negb (reconcilers.Exists (nobjMngr (self s)) KService)
  then Some (CCreateOwned (OService (Builder.service builder None)))
  else if portMatches (corev1.Ports (service (owned (self s))))
            (flowslatest.ConsolePlugin desired)
  then None
  else Some (CUpdateOwned (OService (service (owned (self s))))
               (OService (Builder.service builder (Some (service (owned (self s))))))).

(** The report of [reconcileService] after its service part: untouched
    when the service is absent (no comparator runs), otherwise as
    [serviceNeedsUpdate] leaves it. *)
Definition serviceStageReport (desired : flowslatest.FlowCollectorSpec) (s : St)
  : helper.ChangeReport :=
  if negb (reconcilers.Exists (nobjMngr (self s)) KService)
  then helper.NewChangeReport "Console service"
  else (serviceNeedsUpdate (service (owned (self s)))
          (flowslatest.ConsolePlugin desired)
          (helper.NewChangeReport "Console service")).2.

(** The write [reconcileService] issues for the service monitor when it
    gets that far, given the report of the service part. *)
Definition monitorWrite (env : Env) (builder : Builder.t) (s : St)
    (report : helper.ChangeReport) : option Call :=
  if discover.HasSvcMonitor (availableAPIs (self s)) then
    if negb (reconcilers.Exists (nobjMngr (self s)) KServiceMonitor)
    then Some (CCreateOwned (OServiceMonitor (Builder.serviceMonitor builder)))
    else if (ServiceMonitorChanged env (serviceMonitor (owned (self s)))
               (Builder.serviceMonitor builder) report).1
    then Some (CUpdateOwned (OServiceMonitor (serviceMonitor (owned (self s))))
                 (OServiceMonitor (Builder.serviceMonitor builder)))
    else None
  else None.

(** The report each step holds when it returns: the one it created, as
    the comparators it ran have left it. *)
Definition deploymentReport (env : Env) (builder : Builder.t)
    (desired : flowslatest.FlowCollectorSpec) (digest : string) (s : St)
  : helper.ChangeReport :=
  match annotateReply (cluster env) (calls s)
          (appsv1.Template (Builder.deployment builder digest)) with
  | Failed _ => helper.NewChangeReport "Console deployment"
  | Ok tpl =>
      if negb (reconcilers.Exists (nobjMngr (self s)) KDeployment)
      then helper.NewChangeReport "Console deployment"
      else (helper.DeploymentChanged (deployment (owned (self s)))
              (withTemplate (Builder.deployment builder digest) tpl)
              (PluginName env)
              (helper.HPADisabled
                 (flowslatest.Autoscaler (flowslatest.ConsolePlugin desired)))
              (flowslatest.Replicas (flowslatest.ConsolePlugin desired))
              (helper.NewChangeReport "Console deployment")).2
  end.

Definition serviceReport (env : Env) (builder : Builder.t)
    (desired : flowslatest.FlowCollectorSpec) (s : St) : helper.ChangeReport :=
  let first := serviceStageReport desired s in
  let monitored :=
    if discover.HasSvcMonitor (availableAPIs (self s))
       && reconcilers.Exists (nobjMngr (self s)) KServiceMonitor
    then (ServiceMonitorChanged env (serviceMonitor (owned (self s)))
            (Builder.serviceMonitor builder) first).2
    else first in
  match serviceWrite builder desired s with
  | Some c =>
      match writeReply (cluster env) (calls s) c with
      | Some _ => first
      | None => monitored
      end
  | None => monitored
  end.

Definition autoscalerReport (env : Env)
    (desired : flowslatest.FlowCollectorSpec) (s : St) : helper.ChangeReport :=
  if helper.HPADisabled (flowslatest.Autoscaler (flowslatest.ConsolePlugin desired))
  then helper.NewChangeReport "Console autoscaler"
  else if negb (reconcilers.Exists (nobjMngr (self s)) KHPA)
  then helper.NewChangeReport "Console autoscaler"
  else (AutoScalerChanged env (hpa (owned (self s)))
          (flowslatest.Autoscaler (flowslatest.ConsolePlugin desired))
          (helper.NewChangeReport "Console autoscaler")).2.

(** What a pass may do to the cluster: it deletes nothing but the
    autoscaler, it updates directly nothing but the Console resource,
    it never creates or updates the Console resource as an owned object,
    and an owned update replaces an object by one of the same kind. *)
Definition passDiscipline (c : Call) : Prop :=
  match c with
  | CDelete obj => kindOf obj = KHPA
  | CUpdate obj => kindOf obj = KConsole
  | CCreateOwned obj => kindOf obj <> KConsole
  | CUpdateOwned old new => kindOf old = kindOf new /\ kindOf new <> KConsole
  | _ => True
  end.

Definition notDelete (c : Call) : Prop :=
  match c with
  | CDelete _ => False
  | _ => True
  end.



(** * Properties *)

(** ** Traces *)

Lemma count_app p l1 l2 : count p (l1 ++ l2) = (count p l1 + count p l2)%nat.
Proof.
  induction l1 as [|c l1 IH]; simpl; [reflexivity|].
  rewrite IH. lia.
Qed.

Lemma count_zero_Forall p l :
  count p l = 0%nat <-> Forall (fun c => p c = false) l.
Proof.
  induction l as [|c l IH]; simpl.
  - split; auto.
  - destruct (p c) eqn:E; split; intros H.
    + discriminate.
    + inversion H; congruence.
    + constructor; [assumption | apply IH; lia].
    + inversion H; subst. simpl. apply IH. assumption.
Qed.

Lemma trace_of_app {A} (m : M A) (s : St) (t : list Call) :
  calls (m s).2 = calls s ++ t -> trace_of m s = t.
Proof.
  intros H. unfold trace_of. rewrite H. apply drop_app_length.
Qed.

(** Unfolds a step to its case tree and reads the new calls off the state. *)
Ltac trace_simpl :=
  unfold trace_of, returned, record; simpl;
  rewrite <- ?app_assoc; rewrite ?drop_app_length; simpl.

Ltac unfold_client :=
  unfold deferLogIfNeeded, GenericReconcile, TryDelete, CreateOwned, UpdateOwned,
    Update, Delete, ReconcileClusterRole, ReconcileClusterRoleBinding,
    AnnotatePod, CheckDeploymentInProgress, LogError, LogIfNeeded, Get, write,
    emit, getSelf, putSelf, bind, ret, record in *.

(** ** The service comparator *)

Lemma portMatches_true ports desired :
  portMatches ports desired = true <->
  exists port, port ∈ ports /\
    corev1.Port port = flowslatest.Port desired /\ corev1.Protocol port = "TCP".
Proof.
  induction ports as [|p ports IH]; simpl.
  - split; [discriminate|]. intros (port & Hin & _). inversion Hin.
  - destruct (Z.eqb_spec (corev1.Port p) (flowslatest.Port desired)) as [Hp|Hp];
      destruct (String.eqb_spec (corev1.Protocol p) "TCP") as [Ht|Ht]; simpl.
    + split; [|reflexivity]. intros _. exists p. split; [left|]; auto.
    + rewrite IH. split.
      * intros (port & Hin & H1 & H2). exists port. split; [right|]; auto.
      * intros (port & Hin & H1 & H2). inversion Hin; subst; [congruence|].
        exists port; auto.
    + rewrite IH. split.
      * intros (port & Hin & H1 & H2). exists port. split; [right|]; auto.
      * intros (port & Hin & H1 & H2). inversion Hin; subst; [congruence|].
        exists port; auto.
    + rewrite IH. split.
      * intros (port & Hin & H1 & H2). exists port. split; [right|]; auto.
      * intros (port & Hin & H1 & H2). inversion Hin; subst; [congruence|].
        exists port; auto.
Qed.

(** Case analysis over every branch and every oracle reply of a step. *)
Ltac run_cases :=
  unfold trace_of, returned; cbn beta;
  repeat (first [ progress simplify_eq/= | case_match ]);
  rewrite <- ?app_assoc, ?drop_app_length; simpl.

Lemma portEntryMatches_dec svc desired :
  portMatches (corev1.Ports svc) desired = true <-> portEntryMatches svc desired.
Proof. apply portMatches_true. Qed.

Lemma serviceNeedsUpdate_unchanged svc desired report :
  serviceNeedsUpdate svc desired report = (false, report) <->
  portEntryMatches svc desired.
Proof.
  rewrite <- portEntryMatches_dec. unfold serviceNeedsUpdate.
  destruct (portMatches _ _); split; intros H; congruence.
Qed.

Lemma serviceNeedsUpdate_changed svc desired report :
  serviceNeedsUpdate svc desired report = (true, helper.Add report "Port changed") <->
  ~ portEntryMatches svc desired.
Proof.
  rewrite <- portEntryMatches_dec. unfold serviceNeedsUpdate.
  destruct (portMatches _ _); split; intros H; congruence.
Qed.

Lemma reconcileService_service_writes env builder desired s :
  reconcilers.Exists (nobjMngr (self s)) KService = true ->
  count (isUpdate KService) (trace_of (reconcileService env builder desired) s)
  = (if portMatches (corev1.Ports (service (owned (self s))))
          (flowslatest.ConsolePlugin desired) then 0 else 1)%nat /\
  count (isCreate KService) (trace_of (reconcileService env builder desired) s)
  = 0%nat.
Proof.
  intros Hex.
  unfold reconcileService, serviceNeedsUpdate. unfold_client.
  run_cases; try (split; reflexivity);
    rewrite Hex in *; simpl in *; discriminate.
Qed.

(** C1. [serviceNeedsUpdate] answers "unchanged" exactly when an existing
    port entry has the desired port number and protocol TCP; otherwise it
    answers "changed" and appends "Port changed" to the report.  The
    answer depends on the port list only.  In [reconcileService], for an
    existing service, a match issues no service update and a mismatch
    issues exactly one; no service create is issued either way. *)
Theorem C1_service_comparator_port_only
    (env : Env) (builder : Builder.t) (desired : flowslatest.FlowCollectorSpec)
    (s : St) (report : helper.ChangeReport)
    (Hexists : reconcilers.Exists (nobjMngr (self s)) KService = true) :
  (serviceNeedsUpdate (service (owned (self s))) (flowslatest.ConsolePlugin desired) report
   = (false, report)
   <-> portEntryMatches (service (owned (self s))) (flowslatest.ConsolePlugin desired)) /\
  (serviceNeedsUpdate (service (owned (self s))) (flowslatest.ConsolePlugin desired) report
   = (true, helper.Add report "Port changed")
   <-> ~ portEntryMatches (service (owned (self s))) (flowslatest.ConsolePlugin desired)) /\
  (forall svc' : corev1.Service,
      corev1.Ports svc' = corev1.Ports (service (owned (self s))) ->
      serviceNeedsUpdate svc' (flowslatest.ConsolePlugin desired) report
      = serviceNeedsUpdate (service (owned (self s)))
          (flowslatest.ConsolePlugin desired) report) /\
  (count (isUpdate KService) (trace_of (reconcileService env builder desired) s) = 0%nat
   <-> portEntryMatches (service (owned (self s))) (flowslatest.ConsolePlugin desired)) /\
  (count (isUpdate KService) (trace_of (reconcileService env builder desired) s) = 1%nat
   <-> ~ portEntryMatches (service (owned (self s))) (flowslatest.ConsolePlugin desired)) /\
  count (isCreate KService) (trace_of (reconcileService env builder desired) s) = 0%nat.
Proof.
  destruct (reconcileService_service_writes env builder desired s Hexists)
    as [Hupd Hcre].
  repeat split; try apply serviceNeedsUpdate_unchanged;
    try apply serviceNeedsUpdate_changed; try assumption.
  - intros svc' Hports. unfold serviceNeedsUpdate. rewrite Hports. reflexivity.
  - rewrite Hupd. intros H. apply portEntryMatches_dec.
    destruct (portMatches _ _); [reflexivity | discriminate].
  - rewrite Hupd. intros H. apply portEntryMatches_dec in H. rewrite H. reflexivity.
  - rewrite Hupd. intros H Hm. apply portEntryMatches_dec in Hm.
    rewrite Hm in H. discriminate.
  - rewrite Hupd. intros H. rewrite <- portEntryMatches_dec in H.
    destruct (portMatches _ _); [congruence | reflexivity].
Qed.

Lemma C1_witness :
  reconcilers.Exists
    (nobjMngr (self (Sample.fetched (Sample.clusterOf (Sample.present []) None) false)))
    KService = true /\
  count (isUpdate KService)
    (trace_of
       (reconcileService (Sample.envOf (Sample.clusterOf (Sample.present []) None))
          Sample.builder (flowslatest.Spec (Sample.desired true 1 9002 "DISABLED")))
       (Sample.fetched (Sample.clusterOf (Sample.present []) None) false))
  = 1%nat.
Proof.
  split; [reflexivity|].
  pose proof (C1_service_comparator_port_only
                (Sample.envOf (Sample.clusterOf (Sample.present []) None))
                Sample.builder
                (flowslatest.Spec (Sample.desired true 1 9002 "DISABLED"))
                (Sample.fetched (Sample.clusterOf (Sample.present []) None) false)
                (helper.NewChangeReport "Console service")
                eq_refl) as (_ & _ & _ & _ & H & _).
  apply H. intros (port & Hin & Hport & _).
  apply list_elem_of_singleton in Hin. subst port. discriminate Hport.
Defined.

(** ** The deployment comparator and the autoscaler *)


Lemma reconcileHPA_disabled env builder desired s :
  helper.HPADisabled (flowslatest.Autoscaler (flowslatest.ConsolePlugin desired))
  = true ->
  returned (reconcileHPA env builder desired) s = None /\
  trace_of (reconcileHPA env builder desired) s
  = (if reconcilers.Exists (nobjMngr (self s)) KHPA
     then [CDelete (OHPA (hpa (owned (self s))))] else [])
    ++ [CLogIfNeeded (helper.NewChangeReport "Console autoscaler")].
Proof.
  intros Hdis. unfold reconcileHPA. unfold_client.
  unfold trace_of, returned; cbn beta. rewrite Hdis.
  destruct (reconcilers.Exists _ _); simpl;
    rewrite <- ?app_assoc, drop_app_length; split; reflexivity.
Qed.



(** C10. With autoscaling disabled [reconcileHPA] returns nil whatever
    the cluster answers to the delete, and issues no create and no update
    for the autoscaler. *)
Theorem C10_reconcileHPA_disabled_returns_nil
    (env : Env) (builder : Builder.t) (desired : flowslatest.FlowCollectorSpec)
    (s : St)
    (Hdisabled : helper.HPADisabled
                   (flowslatest.Autoscaler (flowslatest.ConsolePlugin desired)) = true) :
  returned (reconcileHPA env builder desired) s = None /\
  count (isCreate KHPA) (trace_of (reconcileHPA env builder desired) s) = 0%nat /\
  count (isUpdate KHPA) (trace_of (reconcileHPA env builder desired) s) = 0%nat /\
  Forall (fun c => c = CDelete (OHPA (hpa (owned (self s)))) \/
                   c = CLogIfNeeded (helper.NewChangeReport "Console autoscaler"))
    (trace_of (reconcileHPA env builder desired) s).
Proof.
  destruct (reconcileHPA_disabled env builder desired s Hdisabled) as [Hret Htr].
  rewrite Htr. split; [assumption|].
  destruct (reconcilers.Exists (nobjMngr (self s)) KHPA); simpl;
    repeat split; auto.
Qed.

(** The delete fails on this cluster; the step still returns nil. *)
Lemma C10_witness :
  writeReply (Sample.clusterOf (Sample.present []) (Some (ErrOther "forbidden")))
    (calls (Sample.fetched
              (Sample.clusterOf (Sample.present []) (Some (ErrOther "forbidden")))
              false))
    (CDelete (OHPA Sample.asc))
  = Some (ErrOther "forbidden") /\
  returned
    (reconcileHPA
       (Sample.envOf (Sample.clusterOf (Sample.present []) (Some (ErrOther "forbidden"))))
       Sample.builder (flowslatest.Spec (Sample.desired true 1 9001 "DISABLED")))
    (Sample.fetched
       (Sample.clusterOf (Sample.present []) (Some (ErrOther "forbidden"))) false)
  = None /\
  count (isDelete KHPA)
    (trace_of
       (reconcileHPA
          (Sample.envOf (Sample.clusterOf (Sample.present []) (Some (ErrOther "forbidden"))))
          Sample.builder (flowslatest.Spec (Sample.desired true 1 9001 "DISABLED")))
       (Sample.fetched
          (Sample.clusterOf (Sample.present []) (Some (ErrOther "forbidden"))) false))
  = 1%nat.
Proof.
  split; [reflexivity|]. split; [|reflexivity].
  apply (C10_reconcileHPA_disabled_returns_nil
           (Sample.envOf (Sample.clusterOf (Sample.present []) (Some (ErrOther "forbidden"))))
           Sample.builder (flowslatest.Spec (Sample.desired true 1 9001 "DISABLED"))
           (Sample.fetched
              (Sample.clusterOf (Sample.present []) (Some (ErrOther "forbidden"))) false)
           eq_refl).
Defined.

(** ** The config map comparator *)

Lemma DeepEqual_eq (m1 m2 : option (gmap string string)) :
  DeepEqual m1 m2 = true <-> m1 = m2.
Proof.
  destruct m1 as [a|], m2 as [b|]; simpl; try (split; congruence).
  rewrite andb_true_iff, bool_decide_eq_true, forallb_forall. split.
  - intros [Hsize Hall]. f_equal.
    apply map_subseteq_size_eq; [|rewrite Hsize; reflexivity].
    apply map_subseteq_spec. intros k v Hkv.
    specialize (Hall (k, v)). simpl in Hall.
    rewrite bool_decide_eq_true in Hall. apply Hall.
    apply list_elem_of_In, elem_of_map_to_list. assumption.
  - intros Heq. inversion Heq; subst. split; [reflexivity|].
    intros [k v] Hin. simpl. apply bool_decide_eq_true.
    apply list_elem_of_In, elem_of_map_to_list in Hin. assumption.
Qed.

Lemma sameMapping_eq (m1 m2 : option (gmap string string)) :
  sameMapping m1 m2 <-> m1 = m2.
Proof.
  destruct m1 as [a|], m2 as [b|]; simpl; try (split; [tauto | congruence]).
  - rewrite <- map_eq_iff. split; congruence.
  - tauto.
Qed.

Lemma DeepEqual_sameMapping (m1 m2 : option (gmap string string)) :
  DeepEqual m1 m2 = true <-> sameMapping m1 m2.
Proof. rewrite DeepEqual_eq, sameMapping_eq. reflexivity. Qed.

Lemma reconcileConfigMap_existing env builder desired s :
  reconcilers.Exists (nobjMngr (self s)) KConfigMap = true ->
  trace_of (reconcileConfigMap env builder desired) s
  = if DeepEqual (corev1.Data (Builder.configMap builder).1)
         (corev1.Data (configMap (owned (self s))))
    then []
    else [CUpdateOwned (OConfigMap (configMap (owned (self s))))
            (OConfigMap (Builder.configMap builder).1)].
Proof.
  intros Hex. unfold reconcileConfigMap. unfold_client.
  destruct (Builder.configMap builder) as [newCM dg]. simpl.
  unfold trace_of; cbn beta. rewrite Hex. simpl.
  destruct (DeepEqual _ _); simpl.
  - rewrite drop_ge; [reflexivity | lia].
  - destruct (writeReply _ _ _); simpl; apply drop_app_length.
Qed.

(** C3. For an existing config map, [reconcileConfigMap] issues an update
    exactly when the data of the new config map and of the cached one
    differ as mappings (same nil-ness, same value under every key); when
    they agree it makes no call at all.  The comparison does not depend
    on the order in which keys were inserted. *)
Theorem C3_configmap_structural_equality
    (env : Env) (builder : Builder.t) (desired : flowslatest.FlowCollectorSpec)
    (s : St)
    (Hexists : reconcilers.Exists (nobjMngr (self s)) KConfigMap = true) :
  (count (isUpdate KConfigMap) (trace_of (reconcileConfigMap env builder desired) s)
   = 1%nat
   <-> ~ sameMapping (corev1.Data (Builder.configMap builder).1)
           (corev1.Data (configMap (owned (self s))))) /\
  (trace_of (reconcileConfigMap env builder desired) s = []
   <-> sameMapping (corev1.Data (Builder.configMap builder).1)
         (corev1.Data (configMap (owned (self s))))) /\
  count (isCreate KConfigMap) (trace_of (reconcileConfigMap env builder desired) s)
  = 0%nat /\
  (forall (m : gmap string string) (k1 k2 v1 v2 : string),
      k1 <> k2 ->
      DeepEqual (Some (<[k1:=v1]> (<[k2:=v2]> m)))
                (Some (<[k2:=v2]> (<[k1:=v1]> m))) = true).
Proof.
  rewrite (reconcileConfigMap_existing env builder desired s Hexists).
  rewrite <- DeepEqual_sameMapping.
  assert (Horder : forall (m : gmap string string) (k1 k2 v1 v2 : string),
             k1 <> k2 ->
             DeepEqual (Some (<[k1:=v1]> (<[k2:=v2]> m)))
                       (Some (<[k2:=v2]> (<[k1:=v1]> m))) = true).
  { intros m k1 k2 v1 v2 Hne. apply DeepEqual_eq. f_equal.
    apply insert_insert_ne. assumption. }
  destruct (DeepEqual _ _); simpl.
  - split; [|split; [|split]]; auto.
    + split; [discriminate | intros H; exfalso; apply H; reflexivity].
    + split; reflexivity.
  - split; [|split; [|split]]; auto.
    + split; [discriminate | reflexivity].
    + split; discriminate.
Qed.

Lemma C3_witness :
  trace_of
    (reconcileConfigMap (Sample.envOf (Sample.clusterOf (Sample.present []) None))
       Sample.builder (flowslatest.Spec (Sample.desired true 1 9001 "DISABLED")))
    (Sample.fetched (Sample.clusterOf (Sample.present []) None) false)
  = [].
Proof.
  apply (C3_configmap_structural_equality
           (Sample.envOf (Sample.clusterOf (Sample.present []) None))
           Sample.builder (flowslatest.Spec (Sample.desired true 1 9001 "DISABLED"))
           (Sample.fetched (Sample.clusterOf (Sample.present []) None) false)
           eq_refl).
  apply sameMapping_eq. reflexivity.
Defined.

(** ** The registration side channel *)

Lemma ContainsString_elem_of (slice : list string) (s : string) :
  helper.ContainsString slice s = true <-> s ∈ slice.
Proof.
  induction slice as [|item rest IH]; simpl.
  - split; [discriminate | intros H; inversion H].
  - destruct (String.eqb_spec item s) as [->|Hne].
    + split; [intros _; left | reflexivity].
    + rewrite IH. split; [intros H; right; assumption|].
      intros H. inversion H; subst; [congruence | assumption].
Qed.

Lemma ContainsString_false (slice : list string) (s : string) :
  helper.ContainsString slice s = false <-> s ∉ slice.
Proof.
  rewrite <- ContainsString_elem_of.
  destruct (helper.ContainsString slice s); split; congruence.
Qed.

Lemma RemoveAllStrings_filter (slice : list string) (search : string) :
  helper.RemoveAllStrings slice search = filter (fun v => v <> search) slice.
Proof.
  induction slice as [|v rest IH]; simpl; [reflexivity|].
  destruct (String.eqb_spec v search) as [->|Hne].
  - rewrite filter_cons_False; [assumption | intros H; apply H; reflexivity].
  - rewrite filter_cons_True by assumption. rewrite IH. reflexivity.
Qed.

Lemma RemoveAllStrings_gone (slice : list string) (search : string) :
  search ∉ helper.RemoveAllStrings slice search.
Proof.
  rewrite RemoveAllStrings_filter. intros H.
  apply list_elem_of_filter in H. destruct H as [H _]. apply H. reflexivity.
Qed.

Lemma checkAutoPatch_reachable env desired s console :
  getReply (cluster env) KConsole (calls s) "" "cluster" = Ok console ->
  checkAutoPatch env desired s
  = (let register :=
       flowslatest.Register (flowslatest.ConsolePlugin (flowslatest.Spec desired)) in
     let registered :=
       helper.ContainsString (operatorsv1.Plugins console) (PluginName env) in
     if register && negb registered then
       Update env
         (OConsole {| operatorsv1.ConsoleMeta := operatorsv1.ConsoleMeta console;
                      operatorsv1.Plugins :=
                        operatorsv1.Plugins console ++ [PluginName env] |})
         (record (CGet KConsole "" "cluster") s)
     else if negb register && registered then
       Update env
         (OConsole {| operatorsv1.ConsoleMeta := operatorsv1.ConsoleMeta console;
                      operatorsv1.Plugins :=
                        helper.RemoveAllStrings (operatorsv1.Plugins console)
                          (PluginName env) |})
         (record (CGet KConsole "" "cluster") s)
     else (None, record (CGet KConsole "" "cluster") s)).
Proof.
  intros Hget. unfold checkAutoPatch, bind, Get. rewrite Hget. simpl.
  repeat case_match; reflexivity.
Qed.

(** C4. When the Console resource can be read: registering a name that
    is already listed writes nothing; registering an absent name issues
    exactly one write, of the list with the name appended; unregistering
    a listed name issues exactly one write, of the list without any
    occurrence of the name; unregistering an absent name writes
    nothing. *)
Theorem C4_registration_toggle
    (env : Env) (desired : flowslatest.FlowCollector) (s : St)
    (console : operatorsv1.Console)
    (Hread : getReply (cluster env) KConsole (calls s) "" "cluster" = Ok console) :
  (flowslatest.Register (flowslatest.ConsolePlugin (flowslatest.Spec desired)) = true ->
   PluginName env ∈ operatorsv1.Plugins console ->
   trace_of (checkAutoPatch env desired) s = [CGet KConsole "" "cluster"]) /\
  (flowslatest.Register (flowslatest.ConsolePlugin (flowslatest.Spec desired)) = true ->
   PluginName env ∉ operatorsv1.Plugins console ->
   trace_of (checkAutoPatch env desired) s
   = [CGet KConsole "" "cluster";
      CUpdate (OConsole
                 {| operatorsv1.ConsoleMeta := operatorsv1.ConsoleMeta console;
                    operatorsv1.Plugins :=
                      operatorsv1.Plugins console ++ [PluginName env] |})]) /\
  (flowslatest.Register (flowslatest.ConsolePlugin (flowslatest.Spec desired)) = false ->
   PluginName env ∈ operatorsv1.Plugins console ->
   trace_of (checkAutoPatch env desired) s
   = [CGet KConsole "" "cluster";
      CUpdate (OConsole
                 {| operatorsv1.ConsoleMeta := operatorsv1.ConsoleMeta console;
                    operatorsv1.Plugins :=
                      filter (fun v => v <> PluginName env)
                        (operatorsv1.Plugins console) |})] /\
   PluginName env ∉ filter (fun v => v <> PluginName env)
                      (operatorsv1.Plugins console)) /\
  (flowslatest.Register (flowslatest.ConsolePlugin (flowslatest.Spec desired)) = false ->
   PluginName env ∉ operatorsv1.Plugins console ->
   trace_of (checkAutoPatch env desired) s = [CGet KConsole "" "cluster"]).
Proof.
  unfold trace_of. rewrite (checkAutoPatch_reachable env desired s console Hread).
  cbv zeta. unfold Update, write, record. simpl.
  split; [|split; [|split]]; intros Hreg Hin; rewrite Hreg; simpl.
  - apply ContainsString_elem_of in Hin. rewrite Hin. simpl.
    apply drop_app_length.
  - apply ContainsString_false in Hin. rewrite Hin. simpl.
    rewrite <- app_assoc. apply drop_app_length.
  - split.
    + apply ContainsString_elem_of in Hin. rewrite Hin. simpl.
      rewrite <- app_assoc, RemoveAllStrings_filter. apply drop_app_length.
    + rewrite <- RemoveAllStrings_filter. apply RemoveAllStrings_gone.
  - apply ContainsString_false in Hin. rewrite Hin. simpl.
    apply drop_app_length.
Qed.

Lemma C4_witness :
  trace_of
    (checkAutoPatch
       (Sample.envOf (Sample.clusterOf
                        (Sample.present ["netobserv-plugin"; "other"; "netobserv-plugin"])
                        None))
       (Sample.desired false 1 9001 "DISABLED"))
    (initial (NewReconciler
                (Sample.envOf (Sample.clusterOf
                                 (Sample.present ["netobserv-plugin"; "other"; "netobserv-plugin"])
                                 None))
                "netobserv" "" "plugin:main" {| discover.svcMonitor := false |}))
  = [CGet KConsole "" "cluster";
     CUpdate (OConsole (Sample.console ["other"]))].
Proof.
  destruct (C4_registration_toggle
              (Sample.envOf (Sample.clusterOf
                               (Sample.present ["netobserv-plugin"; "other"; "netobserv-plugin"])
                               None))
              (Sample.desired false 1 9001 "DISABLED")
              (initial (NewReconciler
                          (Sample.envOf (Sample.clusterOf
                                           (Sample.present ["netobserv-plugin"; "other"; "netobserv-plugin"])
                                           None))
                          "netobserv" "" "plugin:main" {| discover.svcMonitor := false |}))
              (Sample.console ["netobserv-plugin"; "other"; "netobserv-plugin"])
              eq_refl) as (_ & _ & H & _).
  destruct (H eq_refl) as [Htrace _]; [left|].
  exact Htrace.
Defined.

(** ** The plugin registration resource *)

Lemma reconcilePlugin_existing env builder desired s oldPlg :
  getReply (cluster env) KConsolePlugin (calls s) "" (PluginName env) = Ok oldPlg ->
  trace_of (reconcilePlugin env builder desired) s
  = CGet KConsolePlugin "" (PluginName env)
    :: (if pluginNeedsUpdate oldPlg (flowslatest.ConsolePlugin desired)
        then [CUpdateOwned (OConsolePlugin oldPlg)
                (OConsolePlugin (Builder.consolePlugin builder))]
        else []).
Proof.
  intros Hget. unfold reconcilePlugin. unfold_client.
  unfold trace_of; cbn beta. rewrite Hget. simpl.
  destruct (pluginNeedsUpdate _ _); simpl.
  - destruct (writeReply _ _ _); simpl;
      rewrite <- app_assoc; apply drop_app_length.
  - apply drop_app_length.
Qed.

(** C9. For an existing plugin registration resource, [reconcilePlugin]
    issues an update exactly when the port of the existing resource
    differs from the desired port; with equal ports it only reads,
    whatever else differs between the existing resource and the one the
    builder produces. *)
Theorem C9_plugin_update_port_only
    (env : Env) (builder : Builder.t) (desired : flowslatest.FlowCollectorSpec)
    (s : St) (oldPlg : osv1alpha1.ConsolePlugin)
    (Hread : getReply (cluster env) KConsolePlugin (calls s) "" (PluginName env)
             = Ok oldPlg) :
  (count (isUpdate KConsolePlugin) (trace_of (reconcilePlugin env builder desired) s)
   = 1%nat
   <-> osv1alpha1.Port (osv1alpha1.Service oldPlg)
       <> flowslatest.Port (flowslatest.ConsolePlugin desired)) /\
  (trace_of (reconcilePlugin env builder desired) s
   = [CGet KConsolePlugin "" (PluginName env)]
   <-> osv1alpha1.Port (osv1alpha1.Service oldPlg)
       = flowslatest.Port (flowslatest.ConsolePlugin desired)) /\
  count (isCreate KConsolePlugin) (trace_of (reconcilePlugin env builder desired) s)
  = 0%nat.
Proof.
  rewrite (reconcilePlugin_existing env builder desired s oldPlg Hread).
  unfold pluginNeedsUpdate.
  destruct (Z.eqb_spec (osv1alpha1.Port (osv1alpha1.Service oldPlg))
              (flowslatest.Port (flowslatest.ConsolePlugin desired))) as [Heq|Hne];
    simpl.
  - split; [|split]; [split; [discriminate | congruence] | split; auto | reflexivity].
  - split; [|split]; [split; auto | split; [discriminate | congruence] | reflexivity].
Qed.

(** The existing resource points at another namespace; the ports agree. *)
Lemma C9_witness :
  Sample.plugin "old-namespace" 9001 <> Builder.consolePlugin Sample.builder /\
  trace_of
    (reconcilePlugin
       (Sample.envOf
          (Sample.clusterOf
             (fun k => match k return result (objT k) with
                       | KConsolePlugin => Ok (Sample.plugin "old-namespace" 9001)
                       | k' => Sample.present [] k'
                       end) None))
       Sample.builder (flowslatest.Spec (Sample.desired true 1 9001 "DISABLED")))
    (initial (NewReconciler (Sample.envOf (Sample.clusterOf Sample.absent None))
                "netobserv" "" "plugin:main" {| discover.svcMonitor := false |}))
  = [CGet KConsolePlugin "" "netobserv-plugin"].
Proof.
  split; [discriminate|].
  apply (C9_plugin_update_port_only
           (Sample.envOf
              (Sample.clusterOf
                 (fun k => match k return result (objT k) with
                           | KConsolePlugin => Ok (Sample.plugin "old-namespace" 9001)
                           | k' => Sample.present [] k'
                           end) None))
           Sample.builder (flowslatest.Spec (Sample.desired true 1 9001 "DISABLED"))
           (initial (NewReconciler (Sample.envOf (Sample.clusterOf Sample.absent None))
                       "netobserv" "" "plugin:main" {| discover.svcMonitor := false |}))
           (Sample.plugin "old-namespace" 9001) eq_refl).
  reflexivity.
Defined.

(** ** Sequencing: what a computation adds to the trace *)

Section Hoare.
Context (I : CPReconciler -> Prop) (P : Call -> Prop).

Lemma stepSpec_ret {A} (a : A) : stepSpec I P (ret a).
Proof.
  intros s HI. split; [assumption|]. exists []. simpl.
  rewrite app_nil_r. auto.
Qed.

Lemma stepSpec_bind {A B} (m : M A) (f : A -> M B) :
  stepSpec I P m -> (forall a, stepSpec I P (f a)) -> stepSpec I P (bind m f).
Proof.
  intros Hm Hf s HI. unfold bind.
  destruct (Hm s HI) as (HI1 & t1 & Ht1 & HP1).
  destruct (m s) as [a s1]. simpl in *.
  destruct (Hf a s1 HI1) as (HI2 & t2 & Ht2 & HP2).
  split; [assumption|]. exists (t1 ++ t2).
  rewrite Ht2, Ht1, app_assoc. split; [reflexivity|].
  apply Forall_app. auto.
Qed.

Lemma stepSpec_self {A} (f : CPReconciler -> M A) :
  (forall r, I r -> stepSpec I P (f r)) -> stepSpec I P (bind getSelf f).
Proof. intros H s HI. exact (H (self s) HI s HI). Qed.

Lemma stepSpec_emit (c : Call) : P c -> stepSpec I P (emit c).
Proof.
  intros Hc s HI. split; [assumption|]. exists [c]. simpl. auto.
Qed.

Lemma stepSpec_write env (c : Call) : P c -> stepSpec I P (write env c).
Proof.
  intros Hc s HI. split; [assumption|]. exists [c]. simpl. auto.
Qed.

Lemma stepSpec_Get env k ns name : P (CGet k ns name) -> stepSpec I P (Get env k ns name).
Proof.
  intros Hc s HI. split; [assumption|]. exists [CGet k ns name]. simpl. auto.
Qed.

Lemma stepSpec_AnnotatePod env tpl :
  P (CAnnotatePod tpl) -> stepSpec I P (AnnotatePod env tpl).
Proof.
  intros Hc s HI. split; [assumption|]. exists [CAnnotatePod tpl]. simpl. auto.
Qed.

Lemma stepSpec_runSteps (steps : list (M goerror)) :
  Forall (stepSpec I P) steps -> stepSpec I P (runSteps steps).
Proof.
  induction 1 as [|step rest Hstep _ IH]; simpl.
  - apply stepSpec_ret.
  - apply stepSpec_bind; [assumption|].
    intros [e|]; [apply stepSpec_ret | assumption].
Qed.

(** The trace of a computation satisfying [stepSpec]. *)
Lemma stepSpec_trace {A} (m : M A) (s : St) :
  stepSpec I P m -> I (self s) -> Forall P (trace_of m s).
Proof.
  intros Hm HI. destruct (Hm s HI) as (_ & t & Ht & HP).
  rewrite (trace_of_app m s t Ht). assumption.
Qed.

(** The fetch keeps [I] when [I] does not look at the cache, and reads
    the registered kinds only. *)
Hypothesis I_cache :
  forall r objs o,
    I r ->
    map reconcilers.kind objs
    = map reconcilers.kind (reconcilers.managedObjects (nobjMngr r)) ->
    I {| nobjMngr :=
           {| reconcilers.Namespace := reconcilers.Namespace (nobjMngr r);
              reconcilers.PreviousNamespace :=
                reconcilers.PreviousNamespace (nobjMngr r);
              reconcilers.managedObjects := objs |};
         owned := o; image := image r; availableAPIs := availableAPIs r |}.

Lemma markFound_kinds objs k b :
  map reconcilers.kind (reconcilers.markFound objs k b)
  = map reconcilers.kind objs.
Proof.
  induction objs as [|mo objs IH]; simpl; [reflexivity|].
  rewrite IH. destruct (bool_decide _); reflexivity.
Qed.

Lemma stepSpec_setFound k b : stepSpec I P (setFound k b).
Proof.
  intros s HI. unfold setFound, bind, getSelf, putSelf. simpl. split.
  - apply I_cache; [assumption | apply markFound_kinds].
  - exists []. rewrite app_nil_r. auto.
Qed.

Lemma stepSpec_store k o : stepSpec I P (store k o).
Proof.
  intros s HI. unfold store, bind, getSelf, putSelf. simpl. split.
  - destruct (self s) as [[ns prev objs] ow img apis] eqn:E. simpl.
    apply (I_cache _ objs (setOwned k o ow)) in HI; [|reflexivity].
    exact HI.
  - exists []. rewrite app_nil_r. auto.
Qed.

Lemma stepSpec_fetchLoop env ns objs :
  Forall (fun mo => P (CGet (reconcilers.kind mo) ns (reconcilers.name mo))) objs ->
  stepSpec I P (fetchLoop env ns objs).
Proof.
  induction 1 as [|mo objs Hmo _ IH]; simpl.
  - apply stepSpec_ret.
  - apply stepSpec_bind; [apply stepSpec_Get; assumption|].
    intros [o|err].
    + apply stepSpec_bind; [apply stepSpec_store|]. intros _.
      apply stepSpec_bind; [apply stepSpec_setFound|]. intros _. assumption.
    + destruct (IsNotFound err); [|apply stepSpec_ret].
      apply stepSpec_bind; [apply stepSpec_setFound|]. intros _. assumption.
Qed.

Lemma stepSpec_FetchAll env :
  (forall r, I r ->
     Forall (fun mo => P (CGet (reconcilers.kind mo)
                            (reconcilers.Namespace (nobjMngr r))
                            (reconcilers.name mo)))
       (reconcilers.managedObjects (nobjMngr r))) ->
  stepSpec I P (FetchAll env).
Proof.
  intros H. unfold FetchAll. apply stepSpec_self. intros r HI.
  apply stepSpec_fetchLoop. apply H. assumption.
Qed.
End Hoare.

(** Breaks a step into its primitives; leaves the conditions on calls. *)
Ltac step_spec :=
  repeat first
    [ apply stepSpec_ret
    | apply stepSpec_emit
    | apply stepSpec_write
    | apply stepSpec_Get
    | apply stepSpec_AnnotatePod
    | apply stepSpec_self; intros ? ?
    | apply stepSpec_bind; [|intros ?]
    | match goal with
      | |- stepSpec _ _ (match ?x with _ => _ end) => destruct x eqn:?
      end ].

(** ** The pass as the in-order run of its steps *)

Lemma runSteps_app_ok (pre post : list (M goerror)) (s s1 : St) :
  runSteps pre s = (None, s1) ->
  runSteps (pre ++ post) s = runSteps post s1.
Proof.
  revert s. induction pre as [|step pre IH]; intros s H; simpl in *.
  - unfold ret in H. inversion H. reflexivity.
  - unfold bind in *. destruct (step s) as [[e|] s'].
    + unfold ret in H. discriminate.
    + apply IH. assumption.
Qed.

Lemma runSteps_abort (pre post : list (M goerror)) (step : M goerror)
    (s s1 s2 : St) (e : error) :
  runSteps pre s = (None, s1) ->
  step s1 = (Some e, s2) ->
  runSteps (pre ++ step :: post) s = (Some e, s2).
Proof.
  intros Hpre Hstep. rewrite (runSteps_app_ok pre _ s s1 Hpre). simpl.
  unfold bind. rewrite Hstep. reflexivity.
Qed.

Lemma reconcileConfigMap_digest env builder desired s :
  (reconcileConfigMap env builder desired s).1.2 = None ->
  (reconcileConfigMap env builder desired s).1.1 = (Builder.configMap builder).2.
Proof.
  unfold reconcileConfigMap. unfold_client.
  destruct (Builder.configMap builder) as [newCM dg]. simpl.
  repeat (case_match; simpl); congruence.
Qed.

Lemma Reconcile_runSteps env desired s :
  Reconcile env desired s = runSteps (stepsOf env desired (self s)) s.
Proof.
  unfold Reconcile, stepsOf, runSteps.
  unfold bind at 1. unfold getSelf at 1. cbv beta iota.
  unfold bind, ret.
  destruct (FetchAll env s) as [[e|] s1]; [reflexivity|].
  destruct (checkAutoPatch env desired s1) as [[e|] s2]; [reflexivity|].
  destruct (reconcilePermissions env _ s2) as [[e|] s3]; [reflexivity|].
  destruct (reconcilePlugin env _ _ s3) as [[e|] s4]; [reflexivity|].
  pose proof (reconcileConfigMap_digest env
                (newBuilder env (reconcilers.Namespace (nobjMngr (self s)))
                   (image (self s)) (flowslatest.Spec desired))
                (flowslatest.Spec desired) s4) as Hdg.
  destruct (reconcileConfigMap env _ _ s4) as [[dg [e|]] s5]; simpl in *;
    [reflexivity|].
  rewrite (Hdg eq_refl). reflexivity.
Qed.

(** ** Deployment writes carry the digest of the config map *)

(** One goal per step of a literal list of steps. *)
Ltac forall_steps :=
  repeat match goal with
         | |- Forall _ (_ :: _) => apply List.Forall_cons
         | |- Forall _ [] => apply List.Forall_nil
         end.

Lemma steps_builtFromDigest env desired r :
  Forall (stepSpec (fun _ => True)
            (builtFromDigest
               (newBuilder env (reconcilers.Namespace (nobjMngr r)) (image r)
                  (flowslatest.Spec desired))
               (Builder.configMap
                  (newBuilder env (reconcilers.Namespace (nobjMngr r)) (image r)
                     (flowslatest.Spec desired))).2))
    (stepsOf env desired r).
Proof.
  unfold stepsOf. forall_steps.
  - apply stepSpec_FetchAll; [auto|]. intros r' _.
    apply Forall_forall. intros mo _. exact Logic.I.
  - unfold checkAutoPatch, Update, LogError. step_spec; exact Logic.I.
  - unfold reconcilePermissions, CreateOwned, ReconcileClusterRole,
      ReconcileClusterRoleBinding. step_spec; exact Logic.I.
  - unfold reconcilePlugin, CreateOwned, UpdateOwned. step_spec; exact Logic.I.
  - unfold reconcileConfigMap, CreateOwned, UpdateOwned. step_spec; exact Logic.I.
  - unfold reconcileDeployment, deferLogIfNeeded, CreateOwned, UpdateOwned,
      CheckDeploymentInProgress, LogIfNeeded.
    step_spec; simpl; try exact Logic.I; eexists; reflexivity.
  - unfold reconcileService, deferLogIfNeeded, GenericReconcile, CreateOwned,
      UpdateOwned, LogIfNeeded.
    step_spec; exact Logic.I.
  - unfold reconcileHPA, deferLogIfNeeded, TryDelete, CreateOwned, UpdateOwned,
      Delete, LogIfNeeded.
    step_spec; exact Logic.I.
Qed.


(** C6. A pass is the run, in this order and stopping at the first
    non-nil error, of: fetch-all, registration side effects, permissions,
    plugin registration resource, config map, deployment, service (with
    service monitor), autoscaler.  When a step returns an error after the
    steps before it succeeded, [Reconcile] returns that error and the
    state is the one that step left: no later step has run.  The digest
    the config-map step returns on success is the builder's, and every
    deployment written in the pass is built from that digest. *)
Theorem C6_reconcile_fixed_order
    (env : Env) (desired : flowslatest.FlowCollector) (s : St) :
  stepsOf env desired (self s)
  = [ FetchAll env;
      checkAutoPatch env desired;
      reconcilePermissions env
        (newBuilder env (reconcilers.Namespace (nobjMngr (self s)))
           (image (self s)) (flowslatest.Spec desired));
      reconcilePlugin env
        (newBuilder env (reconcilers.Namespace (nobjMngr (self s)))
           (image (self s)) (flowslatest.Spec desired))
        (flowslatest.Spec desired);
      (let! cm := reconcileConfigMap env
                    (newBuilder env (reconcilers.Namespace (nobjMngr (self s)))
                       (image (self s)) (flowslatest.Spec desired))
                    (flowslatest.Spec desired) in
       ret cm.2);
      reconcileDeployment env
        (newBuilder env (reconcilers.Namespace (nobjMngr (self s)))
           (image (self s)) (flowslatest.Spec desired))
        (flowslatest.Spec desired)
        (Builder.configMap
           (newBuilder env (reconcilers.Namespace (nobjMngr (self s)))
              (image (self s)) (flowslatest.Spec desired))).2;
      reconcileService env
        (newBuilder env (reconcilers.Namespace (nobjMngr (self s)))
           (image (self s)) (flowslatest.Spec desired))
        (flowslatest.Spec desired);
      reconcileHPA env
        (newBuilder env (reconcilers.Namespace (nobjMngr (self s)))
           (image (self s)) (flowslatest.Spec desired))
        (flowslatest.Spec desired) ] /\
  Reconcile env desired s = runSteps (stepsOf env desired (self s)) s /\
  (forall (pre post : list (M goerror)) (step : M goerror) (e : error)
          (s1 s2 : St),
      stepsOf env desired (self s) = pre ++ step :: post ->
      runSteps pre s = (None, s1) ->
      step s1 = (Some e, s2) ->
      Reconcile env desired s = (Some e, s2)) /\
  (forall (s0 : St) (digest : string),
      (reconcileConfigMap env
         (newBuilder env (reconcilers.Namespace (nobjMngr (self s)))
            (image (self s)) (flowslatest.Spec desired))
         (flowslatest.Spec desired) s0).1 = (digest, None) ->
      digest
      = (Builder.configMap
           (newBuilder env (reconcilers.Namespace (nobjMngr (self s)))
              (image (self s)) (flowslatest.Spec desired))).2) /\
  Forall (builtFromDigest
            (newBuilder env (reconcilers.Namespace (nobjMngr (self s)))
               (image (self s)) (flowslatest.Spec desired))
            (Builder.configMap
               (newBuilder env (reconcilers.Namespace (nobjMngr (self s)))
                  (image (self s)) (flowslatest.Spec desired))).2)
    (trace_of (Reconcile env desired) s).
Proof.
  split; [reflexivity|]. split; [apply Reconcile_runSteps|].
  split; [|split].
  - intros pre post step e s1 s2 Hsteps Hpre Hstep.
    rewrite Reconcile_runSteps, Hsteps.
    apply (runSteps_abort pre post step s s1 s2 e Hpre Hstep).
  - intros s0 digest Hcm.
    pose proof (reconcileConfigMap_digest env
                  (newBuilder env (reconcilers.Namespace (nobjMngr (self s)))
                     (image (self s)) (flowslatest.Spec desired))
                  (flowslatest.Spec desired) s0) as Hdg.
    rewrite Hcm in Hdg. simpl in Hdg. apply Hdg. reflexivity.
  - replace (trace_of (Reconcile env desired) s)
      with (trace_of (runSteps (stepsOf env desired (self s))) s)
      by (unfold trace_of; rewrite Reconcile_runSteps; reflexivity).
    apply (stepSpec_trace (fun _ => True)); [|exact Logic.I].
    apply stepSpec_runSteps, steps_builtFromDigest.
Qed.


(** The deployment step fails on the annotation: the pass stops there,
    after the config-map step and before the service step. *)
Lemma C6_witness :
  Reconcile (Sample.envOf Sample.noCertificate)
    (Sample.desired false 1 9001 "DISABLED")
    (Sample.start Sample.noCertificate false)
  = (Some (ErrOther "no certificate"),
     (reconcileDeployment (Sample.envOf Sample.noCertificate) Sample.builder
        (flowslatest.Spec (Sample.desired false 1 9001 "DISABLED")) "digest-1"
        (runSteps
           (take 5 (stepsOf (Sample.envOf Sample.noCertificate)
                      (Sample.desired false 1 9001 "DISABLED")
                      (self (Sample.start Sample.noCertificate false))))
           (Sample.start Sample.noCertificate false)).2).2).
Proof.
  destruct (C6_reconcile_fixed_order (Sample.envOf Sample.noCertificate)
              (Sample.desired false 1 9001 "DISABLED")
              (Sample.start Sample.noCertificate false))
    as (_ & _ & Habort & _).
  apply (Habort
           (take 5 (stepsOf (Sample.envOf Sample.noCertificate)
                      (Sample.desired false 1 9001 "DISABLED")
                      (self (Sample.start Sample.noCertificate false))))
           (drop 6 (stepsOf (Sample.envOf Sample.noCertificate)
                      (Sample.desired false 1 9001 "DISABLED")
                      (self (Sample.start Sample.noCertificate false))))
           (reconcileDeployment (Sample.envOf Sample.noCertificate) Sample.builder
              (flowslatest.Spec (Sample.desired false 1 9001 "DISABLED")) "digest-1")
           (ErrOther "no certificate")
           (runSteps
              (take 5 (stepsOf (Sample.envOf Sample.noCertificate)
                         (Sample.desired false 1 9001 "DISABLED")
                         (self (Sample.start Sample.noCertificate false))))
              (Sample.start Sample.noCertificate false)).2).
  - reflexivity.
  - vm_compute. reflexivity.
  - vm_compute. reflexivity.
Defined.

(** ** Failures around the Console resource *)

Lemma checkAutoPatch_unreachable env desired s err :
  getReply (cluster env) KConsole (calls s) "" "cluster" = Failed err ->
  returned (checkAutoPatch env desired) s = None /\
  trace_of (checkAutoPatch env desired) s
  = CGet KConsole "" "cluster"
    :: (if flowslatest.Register
             (flowslatest.ConsolePlugin (flowslatest.Spec desired))
        then [CLogError err registerManually] else []).
Proof.
  intros Hget. unfold checkAutoPatch. unfold_client.
  unfold trace_of, returned; cbn beta. rewrite Hget.
  destruct (flowslatest.Register _); simpl;
    rewrite <- ?app_assoc, drop_app_length; split; reflexivity.
Qed.

Lemma Reconcile_after_fetch env desired s0 s :
  FetchAll env s0 = (None, s) ->
  Reconcile env desired s0
  = match checkAutoPatch env desired s with
    | (Some e, s2) => (Some e, s2)
    | (None, s2) => runSteps (drop 2 (stepsOf env desired (self s0))) s2
    end.
Proof.
  intros Hfetch. rewrite Reconcile_runSteps. unfold stepsOf.
  change (drop 2 (?a :: ?b :: ?l)) with l.
  cbn [runSteps]. unfold bind at 1. rewrite Hfetch.
  unfold bind at 1. destruct (checkAutoPatch env desired s) as [[e|] s2];
    reflexivity.
Qed.

(** C5 as amended.  After a successful fetch: when the Console resource
    cannot be read, [checkAutoPatch] returns nil, having logged the
    failure if and only if registration is requested, and the pass goes
    on with the steps after it; when the resource is read and its
    membership differs from the requested one, exactly one write is
    attempted, its outcome is what [checkAutoPatch] returns, and an
    error ends the pass with that error. *)
Theorem C5_console_failures
    (env : Env) (desired : flowslatest.FlowCollector) (s0 s : St)
    (Hfetch : FetchAll env s0 = (None, s)) :
  (forall err,
      getReply (cluster env) KConsole (calls s) "" "cluster" = Failed err ->
      returned (checkAutoPatch env desired) s = None /\
      trace_of (checkAutoPatch env desired) s
      = CGet KConsole "" "cluster"
        :: (if flowslatest.Register
                 (flowslatest.ConsolePlugin (flowslatest.Spec desired))
            then [CLogError err registerManually] else []) /\
      Reconcile env desired s0
      = runSteps (drop 2 (stepsOf env desired (self s0)))
          (checkAutoPatch env desired s).2) /\
  (forall console,
      getReply (cluster env) KConsole (calls s) "" "cluster" = Ok console ->
      flowslatest.Register (flowslatest.ConsolePlugin (flowslatest.Spec desired))
      <> helper.ContainsString (operatorsv1.Plugins console) (PluginName env) ->
      exists c,
        trace_of (checkAutoPatch env desired) s
        = [CGet KConsole "" "cluster"; CUpdate (OConsole c)] /\
        returned (checkAutoPatch env desired) s
        = writeReply (cluster env) (calls s ++ [CGet KConsole "" "cluster"])
            (CUpdate (OConsole c)) /\
        (forall e,
            returned (checkAutoPatch env desired) s = Some e ->
            Reconcile env desired s0 = (Some e, (checkAutoPatch env desired s).2))).
Proof.
  pose proof (Reconcile_after_fetch env desired s0 s Hfetch) as Hrec.
  split.
  - intros err Hget.
    destruct (checkAutoPatch_unreachable env desired s err Hget) as [Hret Htr].
    split; [assumption|]. split; [assumption|].
    rewrite Hrec. unfold returned in Hret.
    destruct (checkAutoPatch env desired s) as [[e|] s2]; simpl in *;
      [discriminate | reflexivity].
  - intros console Hget Hne.
    assert (Hlate :
              forall e, returned (checkAutoPatch env desired) s = Some e ->
                        Reconcile env desired s0
                        = (Some e, (checkAutoPatch env desired s).2)).
    { intros e He. rewrite Hrec. unfold returned in He.
      destruct (checkAutoPatch env desired s) as [[e'|] s2]; simpl in *;
        [congruence | discriminate]. }
    revert Hlate. unfold trace_of, returned.
    rewrite (checkAutoPatch_reachable env desired s console Hget). cbv zeta.
    unfold Update, write, record.
    destruct (flowslatest.Register _),
      (helper.ContainsString (operatorsv1.Plugins console) (PluginName env));
      simpl; try congruence; intros Hlate;
      eexists; (split; [rewrite <- app_assoc; apply drop_app_length|]);
      (split; [reflexivity | exact Hlate]).
Qed.

(** The Console resource is unreachable and registration is requested. *)
Lemma C5_witness :
  returned
    (checkAutoPatch (Sample.envOf (Sample.clusterOf Sample.absent None))
       (Sample.desired true 1 9001 "DISABLED"))
    (Sample.fetched (Sample.clusterOf Sample.absent None) false)
  = None /\
  trace_of
    (checkAutoPatch (Sample.envOf (Sample.clusterOf Sample.absent None))
       (Sample.desired true 1 9001 "DISABLED"))
    (Sample.fetched (Sample.clusterOf Sample.absent None) false)
  = [CGet KConsole "" "cluster";
     CLogError (ErrOther "connection refused") registerManually].
Proof.
  assert (Hfetch :
            FetchAll (Sample.envOf (Sample.clusterOf Sample.absent None))
              (Sample.start (Sample.clusterOf Sample.absent None) false)
            = (None, Sample.fetched (Sample.clusterOf Sample.absent None) false)).
  { vm_compute. reflexivity. }
  destruct (C5_console_failures
              (Sample.envOf (Sample.clusterOf Sample.absent None))
              (Sample.desired true 1 9001 "DISABLED")
              (Sample.start (Sample.clusterOf Sample.absent None) false)
              (Sample.fetched (Sample.clusterOf Sample.absent None) false)
              Hfetch) as [H _].
  destruct (H (ErrOther "connection refused") eq_refl) as (Hret & Htr & _).
  split; [exact Hret | exact Htr].
Defined.

(** The Console resource is unreachable and registration is not
    requested: the failure is tolerated and nothing is logged. *)
Lemma C5_counterexample :
  ~ readFailureLogged (Sample.envOf (Sample.clusterOf Sample.absent None))
      (Sample.desired false 1 9001 "DISABLED")
      (Sample.fetched (Sample.clusterOf Sample.absent None) false).
Proof.
  intros H.
  destruct (H (ErrOther "connection refused") eq_refl) as [_ Hin].
  vm_compute in Hin.
  apply list_elem_of_singleton in Hin. discriminate Hin.
Qed.

(** ** Absent resources *)

Lemma reconcileService_absent env builder desired s :
  reconcilers.Exists (nobjMngr (self s)) KService = false ->
  head (trace_of (reconcileService env builder desired) s)
  = Some (CCreateOwned (OService (Builder.service builder None))) /\
  count (isCreate KService) (trace_of (reconcileService env builder desired) s)
  = 1%nat /\
  count (isUpdate KService) (trace_of (reconcileService env builder desired) s)
  = 0%nat.
Proof.
  intros Hex.
  unfold reconcileService, serviceNeedsUpdate. unfold_client.
  run_cases; try (repeat split; reflexivity);
    rewrite Hex in *; simpl in *; discriminate.
Qed.

(** The calls of [reconcileService], on every path. *)
Lemma reconcileService_trace env builder desired s :
  trace_of (reconcileService env builder desired) s
  = match serviceWrite builder desired s with
    | Some c =>
        c :: match writeReply (cluster env) (calls s) c with
             | Some _ => []
             | None =>
                 option_list
                   (monitorWrite env builder s (serviceStageReport desired s))
             end
    | None =>
        option_list (monitorWrite env builder s (serviceStageReport desired s))
    end ++ [CLogIfNeeded (serviceReport env builder desired s)].
Proof.
  unfold serviceReport, monitorWrite, serviceStageReport, serviceWrite,
    reconcileService, serviceNeedsUpdate.
  unfold_client. unfold trace_of; cbn beta.
  destruct (reconcilers.Exists (nobjMngr (self s)) KService); simpl.
  - destruct (portMatches _ _); simpl.
    + destruct (discover.HasSvcMonitor _); simpl;
        [|rewrite drop_app_length; reflexivity].
      destruct (reconcilers.Exists (nobjMngr (self s)) KServiceMonitor); simpl.
      * destruct (ServiceMonitorChanged env _ _ _) as [[|] rep]; simpl;
          [destruct (writeReply _ _ _); simpl|];
          rewrite <- ?app_assoc, drop_app_length; reflexivity.
      * destruct (writeReply _ _ _); simpl;
          rewrite <- ?app_assoc, drop_app_length; reflexivity.
    + destruct (writeReply (cluster env) (calls s) _) as [e|]; simpl;
        [rewrite <- ?app_assoc, drop_app_length; reflexivity|].
      destruct (discover.HasSvcMonitor _); simpl;
        [|rewrite <- ?app_assoc, drop_app_length; reflexivity].
      destruct (reconcilers.Exists (nobjMngr (self s)) KServiceMonitor); simpl.
      * destruct (ServiceMonitorChanged env _ _ _) as [[|] rep]; simpl;
          [destruct (writeReply _ _ _); simpl|];
          rewrite <- ?app_assoc, drop_app_length; reflexivity.
      * destruct (writeReply _ _ _); simpl;
          rewrite <- ?app_assoc, drop_app_length; reflexivity.
  - destruct (writeReply (cluster env) (calls s) _) as [e|]; simpl;
      [rewrite <- ?app_assoc, drop_app_length; reflexivity|].
    destruct (discover.HasSvcMonitor _); simpl;
      [|rewrite <- ?app_assoc, drop_app_length; reflexivity].
    destruct (reconcilers.Exists (nobjMngr (self s)) KServiceMonitor); simpl.
    + destruct (ServiceMonitorChanged env _ _ _) as [[|] rep]; simpl;
        [destruct (writeReply _ _ _); simpl|];
        rewrite <- ?app_assoc, drop_app_length; reflexivity.
    + destruct (writeReply _ _ _); simpl;
        rewrite <- ?app_assoc, drop_app_length; reflexivity.
Qed.

Lemma serviceWrite_not_monitor builder desired s c :
  serviceWrite builder desired s = Some c ->
  isCreate KServiceMonitor c = false /\ isUpdate KServiceMonitor c = false.
Proof.
  unfold serviceWrite. repeat case_match; intros Hc; inversion Hc; subst;
    split; reflexivity.
Qed.

(** C7 as amended.  For a kind recorded as absent, its step consults no
    comparator and issues no update: the calls are fixed by the builder
    alone and the report is left as it was.  It issues exactly one create
    for the service account, the config map, the service, the deployment
    once the certificate annotation succeeded, the autoscaler when
    autoscaling is enabled, and the service monitor when the cluster
    supports the kind and the write due for the service itself, if any,
    has not failed.  With autoscaling disabled the autoscaler step
    creates nothing; when the service write fails [reconcileService]
    returns before the service monitor and creates none. *)
Theorem C7_absent_resource_is_created
    (env : Env) (builder : Builder.t) (desired : flowslatest.FlowCollectorSpec)
    (digest : string) (s : St) :
  (reconcilers.Exists (nobjMngr (self s)) KServiceAccount = false ->
   trace_of (reconcilePermissions env builder) s
   = [CCreateOwned (OServiceAccount (Builder.serviceAccount builder))]) /\
  (reconcilers.Exists (nobjMngr (self s)) KConfigMap = false ->
   trace_of (reconcileConfigMap env builder desired) s
   = [CCreateOwned (OConfigMap (Builder.configMap builder).1)]) /\
  (reconcilers.Exists (nobjMngr (self s)) KDeployment = false ->
   forall tpl,
     annotateReply (cluster env) (calls s)
       (appsv1.Template (Builder.deployment builder digest)) = Ok tpl ->
     trace_of (reconcileDeployment env builder desired digest) s
     = [CAnnotatePod (appsv1.Template (Builder.deployment builder digest));
        CCreateOwned
          (ODeployment (withTemplate (Builder.deployment builder digest) tpl));
        CLogIfNeeded (helper.NewChangeReport "Console deployment")]) /\
  (reconcilers.Exists (nobjMngr (self s)) KService = false ->
   trace_of (reconcileService env builder desired) s
   = CCreateOwned (OService (Builder.service builder None))
     :: match writeReply (cluster env) (calls s)
                (CCreateOwned (OService (Builder.service builder None))) with
        | Some _ => []
        | None =>
            option_list
              (monitorWrite env builder s
                 (helper.NewChangeReport "Console service"))
        end
     ++ [CLogIfNeeded (serviceReport env builder desired s)] /\
   serviceStageReport desired s = helper.NewChangeReport "Console service" /\
   count (isCreate KService) (trace_of (reconcileService env builder desired) s)
   = 1%nat /\
   count (isUpdate KService) (trace_of (reconcileService env builder desired) s)
   = 0%nat) /\
  (reconcilers.Exists (nobjMngr (self s)) KServiceMonitor = false ->
   discover.HasSvcMonitor (availableAPIs (self s)) = true ->
   trace_of (reconcileService env builder desired) s
   = match serviceWrite builder desired s with
     | Some c =>
         c :: match writeReply (cluster env) (calls s) c with
              | Some _ => []
              | None =>
                  [CCreateOwned (OServiceMonitor (Builder.serviceMonitor builder))]
              end
     | None => [CCreateOwned (OServiceMonitor (Builder.serviceMonitor builder))]
     end
     ++ [CLogIfNeeded (serviceStageReport desired s)] /\
   count (isCreate KServiceMonitor)
     (trace_of (reconcileService env builder desired) s)
   = match serviceWrite builder desired s with
     | Some c =>
         match writeReply (cluster env) (calls s) c with
         | Some _ => 0%nat
         | None => 1%nat
         end
     | None => 1%nat
     end /\
   count (isUpdate KServiceMonitor)
     (trace_of (reconcileService env builder desired) s)
   = 0%nat) /\
  (reconcilers.Exists (nobjMngr (self s)) KHPA = false ->
   trace_of (reconcileHPA env builder desired) s
   = if helper.HPADisabled
          (flowslatest.Autoscaler (flowslatest.ConsolePlugin desired))
     then [CLogIfNeeded (helper.NewChangeReport "Console autoscaler")]
     else [CCreateOwned (OHPA (Builder.autoScaler builder));
           CLogIfNeeded (helper.NewChangeReport "Console autoscaler")]).
Proof.
  split; [|split; [|split; [|split; [|split]]]].
  - intros Hex. unfold reconcilePermissions. unfold_client.
    unfold trace_of; cbn beta. rewrite Hex. simpl. apply drop_app_length.
  - intros Hex. unfold reconcileConfigMap. unfold_client.
    destruct (Builder.configMap builder) as [newCM dg]. simpl.
    unfold trace_of; cbn beta. rewrite Hex. simpl.
    destruct (writeReply _ _ _); simpl; apply drop_app_length.
  - intros Hex tpl Hann. unfold reconcileDeployment. unfold_client.
    unfold trace_of; cbn beta. rewrite Hann, Hex. simpl.
    rewrite <- !app_assoc. apply drop_app_length.
  - intros Hex.
    destruct (reconcileService_absent env builder desired s Hex)
      as (_ & Hcre & Hupd).
    assert (Hstage : serviceStageReport desired s
                     = helper.NewChangeReport "Console service")
      by (unfold serviceStageReport; rewrite Hex; reflexivity).
    split; [|split; [exact Hstage | split; assumption]].
    rewrite reconcileService_trace, Hstage.
    unfold serviceWrite. rewrite Hex. reflexivity.
  - intros Hex Hapi.
    assert (Hmon : forall report,
               monitorWrite env builder s report
               = Some (CCreateOwned
                         (OServiceMonitor (Builder.serviceMonitor builder))))
      by (intros report; unfold monitorWrite; rewrite Hapi, Hex; reflexivity).
    assert (Hrep : serviceReport env builder desired s
                   = serviceStageReport desired s).
    { unfold serviceReport. cbv zeta. rewrite Hapi, Hex. simpl.
      repeat case_match; reflexivity. }
    rewrite reconcileService_trace, Hmon, Hrep. simpl.
    split; [reflexivity|].
    destruct (serviceWrite builder desired s) as [c|] eqn:Hw; simpl.
    + destruct (serviceWrite_not_monitor builder desired s c Hw) as [Hc Hu].
      rewrite Hc, Hu.
      destruct (writeReply (cluster env) (calls s) c); simpl;
        split; reflexivity.
    + split; reflexivity.
  - intros Hex. unfold reconcileHPA. unfold_client.
    unfold trace_of; cbn beta. rewrite Hex.
    destruct (helper.HPADisabled _); simpl; rewrite ?Hex; simpl;
      rewrite <- ?app_assoc; apply drop_app_length.
Qed.

(** Nothing exists yet and autoscaling is enabled. *)
Lemma C7_witness :
  trace_of
    (reconcileHPA (Sample.envOf (Sample.clusterOf Sample.absent None))
       Sample.builder (flowslatest.Spec (Sample.desired true 1 9001 "ENABLED")))
    (Sample.fetched (Sample.clusterOf Sample.absent None) false)
  = [CCreateOwned (OHPA Sample.asc);
     CLogIfNeeded (helper.NewChangeReport "Console autoscaler")].
Proof.
  destruct (C7_absent_resource_is_created
              (Sample.envOf (Sample.clusterOf Sample.absent None))
              Sample.builder
              (flowslatest.Spec (Sample.desired true 1 9001 "ENABLED"))
              "digest-1"
              (Sample.fetched (Sample.clusterOf Sample.absent None) false))
    as (_ & _ & _ & _ & _ & H).
  exact (H eq_refl).
Defined.

(** Nothing exists yet and autoscaling is disabled: the autoscaler is
    recorded as absent and its step creates nothing. *)
Lemma C7_counterexample :
  ~ absentCreatesOnce KHPA
      (reconcileHPA (Sample.envOf (Sample.clusterOf Sample.absent None))
         Sample.builder (flowslatest.Spec (Sample.desired true 1 9001 "DISABLED")))
      (Sample.fetched (Sample.clusterOf Sample.absent None) false).
Proof.
  intros H. destruct (H eq_refl) as [Hcreate _].
  vm_compute in Hcreate. discriminate Hcreate.
Qed.

(** ** Conditional registration of the service monitor *)

Lemma NewReconciler_registered env ns prevNS imageName apis :
  reconcilers.registered (nobjMngr (NewReconciler env ns prevNS imageName apis))
  = [KDeployment; KService; KHPA; KServiceAccount; KConfigMap]
    ++ (if discover.HasSvcMonitor apis then [KServiceMonitor] else []).
Proof.
  unfold NewReconciler. destruct (discover.HasSvcMonitor apis); reflexivity.
Qed.

Lemma NewReconciler_noMonitor env ns prevNS imageName apis :
  discover.HasSvcMonitor apis = false ->
  noMonitor (NewReconciler env ns prevNS imageName apis).
Proof.
  intros Hno. split; [exact Hno|].
  rewrite NewReconciler_registered, Hno. simpl.
  intros Hin. repeat (apply elem_of_cons in Hin as [Hin|Hin]; [discriminate|]).
  inversion Hin.
Qed.

Lemma noMonitor_cache r objs o :
  noMonitor r ->
  map reconcilers.kind objs
  = map reconcilers.kind (reconcilers.managedObjects (nobjMngr r)) ->
  noMonitor
    {| nobjMngr :=
         {| reconcilers.Namespace := reconcilers.Namespace (nobjMngr r);
            reconcilers.PreviousNamespace :=
              reconcilers.PreviousNamespace (nobjMngr r);
            reconcilers.managedObjects := objs |};
       owned := o; image := image r; availableAPIs := availableAPIs r |}.
Proof.
  intros [Hapi Hreg] Hkinds. split; [exact Hapi|].
  unfold reconcilers.registered in *. simpl. rewrite Hkinds. exact Hreg.
Qed.

Lemma steps_noMonitor env desired r :
  noMonitor r ->
  Forall (stepSpec noMonitor (fun c => touches KServiceMonitor c = false))
    (stepsOf env desired r).
Proof.
  intros _. unfold stepsOf. forall_steps.
  - apply stepSpec_FetchAll; [apply noMonitor_cache|].
    intros r' [_ Hreg]. apply Forall_forall. intros mo Hmo.
    unfold touches. simpl. rewrite !orb_false_r.
    apply bool_decide_eq_false. intros Hk. apply Hreg.
    unfold reconcilers.registered. rewrite <- Hk.
    apply list_elem_of_In, in_map, list_elem_of_In. exact Hmo.
  - unfold checkAutoPatch, Update, LogError. step_spec; reflexivity.
  - unfold reconcilePermissions, CreateOwned, ReconcileClusterRole,
      ReconcileClusterRoleBinding. step_spec; reflexivity.
  - unfold reconcilePlugin, CreateOwned, UpdateOwned. step_spec; reflexivity.
  - unfold reconcileConfigMap, CreateOwned, UpdateOwned. step_spec; reflexivity.
  - unfold reconcileDeployment, deferLogIfNeeded, CreateOwned, UpdateOwned,
      CheckDeploymentInProgress, LogIfNeeded.
    step_spec; reflexivity.
  - unfold reconcileService, deferLogIfNeeded, GenericReconcile, CreateOwned,
      UpdateOwned, LogIfNeeded.
    step_spec; try reflexivity;
      match goal with
      | HI : noMonitor ?r, E : discover.HasSvcMonitor (availableAPIs ?r) = true
        |- _ => destruct HI as [HI _]; congruence
      end.
  - unfold reconcileHPA, deferLogIfNeeded, TryDelete, CreateOwned, UpdateOwned,
      Delete, LogIfNeeded.
    step_spec; reflexivity.
Qed.

Lemma Reconcile_noMonitor env desired :
  stepSpec noMonitor (fun c => touches KServiceMonitor c = false)
    (Reconcile env desired).
Proof.
  intros s HI. rewrite Reconcile_runSteps.
  apply stepSpec_runSteps; [|exact HI].
  apply steps_noMonitor. exact HI.
Qed.

Lemma passes_noMonitor env desireds :
  stepSpec noMonitor (fun c => touches KServiceMonitor c = false)
    (passes env desireds).
Proof.
  induction desireds as [|desired rest IH]; simpl.
  - apply stepSpec_ret.
  - apply stepSpec_bind; [apply Reconcile_noMonitor|]. intros err.
    apply stepSpec_bind; [exact IH|]. intros errs. apply stepSpec_ret.
Qed.

(** C8. When discovery reports the service monitor kind unsupported,
    [NewReconciler] registers exactly the five other kinds with the
    object manager, and over any sequence of passes of that reconciler no
    read, create, update or delete names a service monitor. *)
Theorem C8_service_monitor_gated
    (env : Env) (ns prevNS imageName : string) (apis : discover.AvailableAPIs)
    (desireds : list flowslatest.FlowCollector)
    (Hunsupported : discover.HasSvcMonitor apis = false) :
  reconcilers.registered (nobjMngr (NewReconciler env ns prevNS imageName apis))
  = [KDeployment; KService; KHPA; KServiceAccount; KConfigMap] /\
  count (touches KServiceMonitor)
    (calls (passes env desireds
              (initial (NewReconciler env ns prevNS imageName apis))).2)
  = 0%nat.
Proof.
  split.
  - rewrite NewReconciler_registered, Hunsupported. reflexivity.
  - apply count_zero_Forall.
    pose proof (stepSpec_trace noMonitor _ (passes env desireds)
                  (initial (NewReconciler env ns prevNS imageName apis))
                  (passes_noMonitor env desireds)
                  (NewReconciler_noMonitor env ns prevNS imageName apis
                     Hunsupported)) as H.
    unfold trace_of in H. simpl in H. rewrite drop_0 in H. exact H.
Qed.

(** Two passes on a cluster where a service monitor exists. *)
Lemma C8_witness :
  count (touches KServiceMonitor)
    (calls (passes (Sample.envOf (Sample.clusterOf (Sample.present []) None))
              [Sample.desired true 1 9001 "DISABLED";
               Sample.desired false 2 9002 "ENABLED"]
              (Sample.start (Sample.clusterOf (Sample.present []) None) false)).2)
  = 0%nat.
Proof.
  apply (C8_service_monitor_gated
           (Sample.envOf (Sample.clusterOf (Sample.present []) None))
           "netobserv" "" "plugin:main" {| discover.svcMonitor := false |}
           [Sample.desired true 1 9001 "DISABLED";
            Sample.desired false 2 9002 "ENABLED"]
           eq_refl).
Defined.

(** * Further properties of the reconciler *)

(** ** Loki URLs *)

(** [statusURL] falls back to the querier URL and then to the ingester
    URL: it is empty only when the three of them are, and it is the
    querier's answer whenever no status URL is set. *)
Theorem statusURL_fallback (loki : flowslatest.FlowCollectorLoki) :
  (statusURL loki = ""
   <-> flowslatest.StatusURL loki = "" /\ flowslatest.QuerierURL loki = "" /\
       flowslatest.URL loki = "") /\
  (querierURL loki = ""
   <-> flowslatest.QuerierURL loki = "" /\ flowslatest.URL loki = "") /\
  (flowslatest.StatusURL loki = "" -> statusURL loki = querierURL loki) /\
  (flowslatest.StatusURL loki <> "" -> statusURL loki = flowslatest.StatusURL loki).
Proof.
  unfold statusURL, querierURL.
  destruct (String.eqb_spec (flowslatest.StatusURL loki) "") as [Hs|Hs];
    destruct (String.eqb_spec (flowslatest.QuerierURL loki) "") as [Hq|Hq];
    simpl; repeat split; try tauto; try congruence; intros; tauto.
Qed.

Lemma statusURL_fallback_witness :
  statusURL (flowslatest.Loki (flowslatest.Spec (Sample.desired true 1 9001 "DISABLED")))
  = "http://loki:3100/".
Proof.
  destruct (statusURL_fallback
              (flowslatest.Loki (flowslatest.Spec (Sample.desired true 1 9001 "DISABLED"))))
    as (_ & _ & H & _).
  rewrite (H eq_refl). reflexivity.
Defined.

(** ** More on the service comparator *)

Lemma portMatches_app (l1 l2 : list corev1.ServicePort) (desired : pluginSpec) :
  portMatches (l1 ++ l2) desired = portMatches l1 desired || portMatches l2 desired.
Proof.
  induction l1 as [|p l1 IH]; simpl; [reflexivity|].
  destruct (Z.eqb _ _ && String.eqb _ _); [reflexivity | exact IH].
Qed.

(** Port entries added around the existing ones (by another controller,
    say) never turn an unchanged service into a changed one. *)
Theorem serviceNeedsUpdate_more_ports
    (svc svc' : corev1.Service) (before after : list corev1.ServicePort)
    (desired : pluginSpec) (report : helper.ChangeReport)
    (Hports : corev1.Ports svc' = before ++ corev1.Ports svc ++ after)
    (Hunchanged : serviceNeedsUpdate svc desired report = (false, report)) :
  serviceNeedsUpdate svc' desired report = (false, report).
Proof.
  unfold serviceNeedsUpdate in *. rewrite Hports, !portMatches_app.
  destruct (portMatches (corev1.Ports svc) desired); [|discriminate].
  rewrite orb_true_l, orb_true_r. reflexivity.
Qed.

Lemma serviceNeedsUpdate_more_ports_witness :
  serviceNeedsUpdate
    {| corev1.ServiceMeta := Sample.meta "netobserv-plugin" "netobserv";
       corev1.Ports :=
         [ {| corev1.PortName := "metrics"; corev1.Protocol := "TCP";
              corev1.Port := 9002; corev1.TargetPort := 9002; corev1.NodePort := 0 |} ]
         ++ corev1.Ports Sample.svc ++ [];
       corev1.Selector := ∅; corev1.ClusterIP := "" |}
    (flowslatest.ConsolePlugin (flowslatest.Spec (Sample.desired true 1 9001 "DISABLED")))
    (helper.NewChangeReport "Console service")
  = (false, helper.NewChangeReport "Console service").
Proof.
  apply (serviceNeedsUpdate_more_ports Sample.svc _
           [ {| corev1.PortName := "metrics"; corev1.Protocol := "TCP";
                corev1.Port := 9002; corev1.TargetPort := 9002; corev1.NodePort := 0 |} ]
           []); reflexivity.
Defined.

(** A service none of whose port entries is TCP needs an update whatever
    the port numbers are; so does a service without port entries. *)
Theorem serviceNeedsUpdate_protocol_matters
    (svc : corev1.Service) (desired : pluginSpec) (report : helper.ChangeReport)
    (Hnotcp : Forall (fun port => corev1.Protocol port <> "TCP") (corev1.Ports svc)) :
  serviceNeedsUpdate svc desired report = (true, helper.Add report "Port changed").
Proof.
  apply serviceNeedsUpdate_changed. intros (port & Hin & _ & Htcp).
  rewrite Forall_forall in Hnotcp. exact (Hnotcp port Hin Htcp).
Qed.

Lemma serviceNeedsUpdate_protocol_matters_witness :
  serviceNeedsUpdate
    {| corev1.ServiceMeta := Sample.meta "netobserv-plugin" "netobserv";
       corev1.Ports :=
         [ {| corev1.PortName := "main"; corev1.Protocol := "UDP";
              corev1.Port := 9001; corev1.TargetPort := 9001; corev1.NodePort := 0 |} ];
       corev1.Selector := ∅; corev1.ClusterIP := "" |}
    (flowslatest.ConsolePlugin (flowslatest.Spec (Sample.desired true 1 9001 "DISABLED")))
    (helper.NewChangeReport "Console service")
  = (true, helper.Add (helper.NewChangeReport "Console service") "Port changed").
Proof.
  apply serviceNeedsUpdate_protocol_matters.
  apply Forall_cons. split; [discriminate | apply Forall_nil_2].
Defined.

(** ** Permissions *)

(** For an existing service account [reconcilePermissions] writes no
    service account; it reconciles the cluster role, and the cluster role
    binding only when that succeeded; it returns the first error met.
    When the account is absent the create is all it does in that pass:
    role and binding are left for the next one. *)
Theorem reconcilePermissions_order
    (env : Env) (builder : Builder.t) (s : St) :
  (reconcilers.Exists (nobjMngr (self s)) KServiceAccount = true ->
   trace_of (reconcilePermissions env builder) s
   = CReconcileClusterRole (buildClusterRole env)
     :: match writeReply (cluster env) (calls s)
                (CReconcileClusterRole (buildClusterRole env)) with
        | Some _ => []
        | None =>
            [CReconcileClusterRoleBinding (Builder.clusterRoleBinding builder)]
        end /\
   returned (reconcilePermissions env builder) s
   = match writeReply (cluster env) (calls s)
             (CReconcileClusterRole (buildClusterRole env)) with
     | Some e => Some e
     | None =>
         writeReply (cluster env)
           (calls s ++ [CReconcileClusterRole (buildClusterRole env)])
           (CReconcileClusterRoleBinding (Builder.clusterRoleBinding builder))
     end) /\
  (reconcilers.Exists (nobjMngr (self s)) KServiceAccount = false ->
   trace_of (reconcilePermissions env builder) s
   = [CCreateOwned (OServiceAccount (Builder.serviceAccount builder))] /\
   returned (reconcilePermissions env builder) s
   = writeReply (cluster env) (calls s)
       (CCreateOwned (OServiceAccount (Builder.serviceAccount builder)))).
Proof.
  split; intros Hex; unfold reconcilePermissions; unfold_client;
    unfold trace_of, returned; cbn beta; rewrite Hex; simpl.
  - destruct (writeReply (cluster env) (calls s) _) as [e|]; simpl.
    + split; [apply drop_app_length | reflexivity].
    + destruct (writeReply _ _ _) as [e|]; simpl;
        rewrite <- app_assoc; split; try apply drop_app_length; reflexivity.
  - split; [apply drop_app_length | reflexivity].
Qed.

(** The role reconcile is refused: the binding is not attempted. *)
Lemma reconcilePermissions_order_witness :
  trace_of
    (reconcilePermissions
       (Sample.envOf (Sample.clusterOf (Sample.present []) (Some (ErrOther "forbidden"))))
       Sample.builder)
    (Sample.fetched (Sample.clusterOf (Sample.present []) (Some (ErrOther "forbidden")))
       false)
  = [CReconcileClusterRole {| rbacv1.RoleName := "netobserv-plugin"; rbacv1.Rules := [] |}]
  /\
  returned
    (reconcilePermissions
       (Sample.envOf (Sample.clusterOf (Sample.present []) (Some (ErrOther "forbidden"))))
       Sample.builder)
    (Sample.fetched (Sample.clusterOf (Sample.present []) (Some (ErrOther "forbidden")))
       false)
  = Some (ErrOther "forbidden").
Proof.
  destruct (reconcilePermissions_order
              (Sample.envOf (Sample.clusterOf (Sample.present [])
                               (Some (ErrOther "forbidden"))))
              Sample.builder
              (Sample.fetched (Sample.clusterOf (Sample.present [])
                                 (Some (ErrOther "forbidden"))) false))
    as [H _].
  exact (H eq_refl).
Defined.

(** ** The plugin registration resource when it cannot be read *)

(** A not-found answer makes [reconcilePlugin] create the builder's
    plugin and return the outcome of the create; any other read error is
    returned as it is and nothing is written. *)
Theorem reconcilePlugin_read_failure
    (env : Env) (builder : Builder.t) (desired : flowslatest.FlowCollectorSpec)
    (s : St) (err : error)
    (Hread : getReply (cluster env) KConsolePlugin (calls s) "" (PluginName env)
             = Failed err) :
  (IsNotFound err = true ->
   trace_of (reconcilePlugin env builder desired) s
   = [CGet KConsolePlugin "" (PluginName env);
      CCreateOwned (OConsolePlugin (Builder.consolePlugin builder))] /\
   returned (reconcilePlugin env builder desired) s
   = writeReply (cluster env)
       (calls s ++ [CGet KConsolePlugin "" (PluginName env)])
       (CCreateOwned (OConsolePlugin (Builder.consolePlugin builder)))) /\
  (IsNotFound err = false ->
   trace_of (reconcilePlugin env builder desired) s
   = [CGet KConsolePlugin "" (PluginName env)] /\
   returned (reconcilePlugin env builder desired) s = Some err).
Proof.
  split; intros Hnf; unfold reconcilePlugin; unfold_client;
    unfold trace_of, returned; cbn beta; rewrite Hread, Hnf; simpl.
  - destruct (writeReply _ _ _) as [e|]; simpl;
      rewrite <- app_assoc; split; try apply drop_app_length; reflexivity.
  - split; [apply drop_app_length | reflexivity].
Qed.

Lemma reconcilePlugin_read_failure_witness :
  trace_of
    (reconcilePlugin (Sample.envOf (Sample.clusterOf Sample.absent None))
       Sample.builder (flowslatest.Spec (Sample.desired true 1 9001 "DISABLED")))
    (Sample.fetched (Sample.clusterOf Sample.absent None) false)
  = [CGet KConsolePlugin "" "netobserv-plugin";
     CCreateOwned (OConsolePlugin (Sample.plugin "netobserv" 9001))].
Proof.
  destruct (reconcilePlugin_read_failure
              (Sample.envOf (Sample.clusterOf Sample.absent None))
              Sample.builder (flowslatest.Spec (Sample.desired true 1 9001 "DISABLED"))
              (Sample.fetched (Sample.clusterOf Sample.absent None) false)
              (ErrNotFound "not found") eq_refl) as [H _].
  destruct (H eq_refl) as [Htr _]. exact Htr.
Defined.

(** ** What the config-map step returns *)

(** [reconcileConfigMap] makes at most one call.  It returns the
    builder's digest with a nil error unless that call fails, in which
    case it returns the empty digest with the error of the call. *)
Theorem reconcileConfigMap_returns
    (env : Env) (builder : Builder.t) (desired : flowslatest.FlowCollectorSpec)
    (s : St) :
  (trace_of (reconcileConfigMap env builder desired) s = [] /\
   returned (reconcileConfigMap env builder desired) s
   = ((Builder.configMap builder).2, None)) \/
  (exists c,
      trace_of (reconcileConfigMap env builder desired) s = [c] /\
      (isCreate KConfigMap c || isUpdate KConfigMap c = true) /\
      returned (reconcileConfigMap env builder desired) s
      = match writeReply (cluster env) (calls s) c with
        | Some e => ("", Some e)
        | None => ((Builder.configMap builder).2, None)
        end).
Proof.
  unfold reconcileConfigMap. unfold_client.
  destruct (Builder.configMap builder) as [newCM dg]. simpl.
  unfold trace_of, returned; cbn beta.
  destruct (negb (reconcilers.Exists _ _)); simpl.
  - right. exists (CCreateOwned (OConfigMap newCM)).
    destruct (writeReply _ _ _); simpl;
      (split; [apply drop_app_length | split; reflexivity]).
  - destruct (negb (DeepEqual _ _)); simpl.
    + right.
      exists (CUpdateOwned (OConfigMap (configMap (owned (self s))))
                (OConfigMap newCM)).
      destruct (writeReply _ _ _); simpl;
        (split; [apply drop_app_length | split; reflexivity]).
    + left. split; [|reflexivity]. rewrite drop_ge; [reflexivity | lia].
Qed.

(** ** The deployment step *)

(** When the certificate watcher fails, [reconcileDeployment] returns its
    error without looking at the existing deployment: nothing is created,
    updated or checked, and the (empty) report is still handed to the
    logger. *)
Theorem reconcileDeployment_annotation_failure
    (env : Env) (builder : Builder.t) (desired : flowslatest.FlowCollectorSpec)
    (digest : string) (s : St) (err : error)
    (Hannot : annotateReply (cluster env) (calls s)
                (appsv1.Template (Builder.deployment builder digest))
              = Failed err) :
  returned (reconcileDeployment env builder desired digest) s = Some err /\
  trace_of (reconcileDeployment env builder desired digest) s
  = [CAnnotatePod (appsv1.Template (Builder.deployment builder digest));
     CLogIfNeeded (helper.NewChangeReport "Console deployment")].
Proof.
  unfold reconcileDeployment. unfold_client.
  unfold trace_of, returned; cbn beta. rewrite Hannot. simpl.
  rewrite <- app_assoc. split; [reflexivity | apply drop_app_length].
Qed.

Lemma reconcileDeployment_annotation_failure_witness :
  returned
    (reconcileDeployment (Sample.envOf Sample.noCertificate) Sample.builder
       (flowslatest.Spec (Sample.desired true 1 9001 "DISABLED")) "digest-1")
    (Sample.start Sample.noCertificate false)
  = Some (ErrOther "no certificate").
Proof.
  apply (reconcileDeployment_annotation_failure
           (Sample.envOf Sample.noCertificate) Sample.builder
           (flowslatest.Spec (Sample.desired true 1 9001 "DISABLED")) "digest-1"
           (Sample.start Sample.noCertificate false)
           (ErrOther "no certificate") eq_refl).
Defined.

(** For an existing deployment, after a successful annotation, the step
    either updates (when the comparator says changed) or checks the
    rollout in progress (when it says unchanged), never both; the update
    replaces the cached deployment by the annotated new one, and only
    the update can make the step fail. *)
Theorem reconcileDeployment_update_or_check
    (env : Env) (builder : Builder.t) (desired : flowslatest.FlowCollectorSpec)
    (digest : string) (s : St) (tpl : corev1.PodTemplateSpec)
    (Hexists : reconcilers.Exists (nobjMngr (self s)) KDeployment = true)
    (Hannot : annotateReply (cluster env) (calls s)
                (appsv1.Template (Builder.deployment builder digest)) = Ok tpl) :
  exists (changed : bool) (report : helper.ChangeReport),
    helper.DeploymentChanged (deployment (owned (self s)))
      (withTemplate (Builder.deployment builder digest) tpl) (PluginName env)
      (helper.HPADisabled
         (flowslatest.Autoscaler (flowslatest.ConsolePlugin desired)))
      (flowslatest.Replicas (flowslatest.ConsolePlugin desired))
      (helper.NewChangeReport "Console deployment")
    = (changed, report) /\
    trace_of (reconcileDeployment env builder desired digest) s
    = [CAnnotatePod (appsv1.Template (Builder.deployment builder digest));
       if changed
       then CUpdateOwned (ODeployment (deployment (owned (self s))))
              (ODeployment (withTemplate (Builder.deployment builder digest) tpl))
       else CCheckDeploymentInProgress (deployment (owned (self s)));
       CLogIfNeeded report] /\
    returned (reconcileDeployment env builder desired digest) s
    = if changed
      then writeReply (cluster env)
             (calls s ++ [CAnnotatePod
                            (appsv1.Template (Builder.deployment builder digest))])
             (CUpdateOwned (ODeployment (deployment (owned (self s))))
                (ODeployment (withTemplate (Builder.deployment builder digest) tpl)))
      else None.
Proof.
  unfold reconcileDeployment. unfold_client.
  unfold trace_of, returned; cbn beta. rewrite Hannot, Hexists. simpl.
  destruct (helper.DeploymentChanged _ _ _ _ _ _) as [changed report].
  exists changed, report. split; [reflexivity|].
  destruct changed; simpl; rewrite <- !app_assoc;
    (split; [apply drop_app_length | reflexivity]).
Qed.

Lemma reconcileDeployment_update_or_check_witness :
  exists report,
    trace_of
      (reconcileDeployment
         (Sample.envOf (Sample.clusterOf (Sample.present []) None))
         Sample.builder (flowslatest.Spec (Sample.desired true 1 9001 "DISABLED"))
         "digest-1")
      (Sample.fetched (Sample.clusterOf (Sample.present []) None) false)
    = [CAnnotatePod (appsv1.Template (Builder.deployment Sample.builder "digest-1"));
       CUpdateOwned (ODeployment (Sample.depl 1))
         (ODeployment (Builder.deployment Sample.builder "digest-1"));
       CLogIfNeeded report].
Proof.
  destruct (reconcileDeployment_update_or_check
              (Sample.envOf (Sample.clusterOf (Sample.present []) None))
              Sample.builder (flowslatest.Spec (Sample.desired true 1 9001 "DISABLED"))
              "digest-1"
              (Sample.fetched (Sample.clusterOf (Sample.present []) None) false)
              (appsv1.Template (Builder.deployment Sample.builder "digest-1"))
              eq_refl eq_refl) as (changed & report & Hchg & Htr & _).
  vm_compute in Hchg. inversion Hchg; subst. exists
    (helper.Add (helper.NewChangeReport "Console deployment") "Pod changed").
  exact Htr.
Defined.

(** ** The deferred report *)

Lemma serviceWrite_not_report builder desired s c :
  serviceWrite builder desired s = Some c -> isReport c = false.
Proof.
  unfold serviceWrite. repeat case_match; intros Hc; inversion Hc; reflexivity.
Qed.

Lemma monitorWrite_not_report env builder s report :
  count isReport (option_list (monitorWrite env builder s report)) = 0%nat.
Proof. unfold monitorWrite. repeat case_match; reflexivity. Qed.

(** [reconcileDeployment], [reconcileService] and [reconcileHPA] hand
    their report to the logger exactly once, as their last call, on
    every path, error returns included; the report handed over is the
    one the step created, as the comparators it ran have left it. *)
Theorem report_logged_last
    (env : Env) (builder : Builder.t) (desired : flowslatest.FlowCollectorSpec)
    (digest : string) (s : St) :
  (exists pre,
      trace_of (reconcileDeployment env builder desired digest) s
      = pre ++ [CLogIfNeeded (deploymentReport env builder desired digest s)] /\
      count isReport pre = 0%nat) /\
  (exists pre,
      trace_of (reconcileService env builder desired) s
      = pre ++ [CLogIfNeeded (serviceReport env builder desired s)] /\
      count isReport pre = 0%nat) /\
  (exists pre,
      trace_of (reconcileHPA env builder desired) s
      = pre ++ [CLogIfNeeded (autoscalerReport env desired s)] /\
      count isReport pre = 0%nat).
Proof.
  split; [|split].
  - unfold deploymentReport, reconcileDeployment. unfold_client.
    unfold trace_of; cbn beta.
    destruct (annotateReply _ _ _) as [tpl|err]; simpl.
    + destruct (reconcilers.Exists (nobjMngr (self s)) KDeployment); simpl.
      * destruct (helper.DeploymentChanged _ _ _ _ _ _) as [[|] report]; simpl;
          rewrite <- !app_assoc, drop_app_length;
          eexists; (split; [apply app_assoc | reflexivity]).
      * rewrite <- !app_assoc, drop_app_length.
        eexists; (split; [apply app_assoc | reflexivity]).
    + rewrite <- !app_assoc, drop_app_length.
      exists [CAnnotatePod (appsv1.Template (Builder.deployment builder digest))].
      split; reflexivity.
  - rewrite reconcileService_trace. eexists. split; [reflexivity|].
    destruct (serviceWrite builder desired s) as [c|] eqn:Hw; simpl.
    + rewrite (serviceWrite_not_report builder desired s c Hw). simpl.
      destruct (writeReply (cluster env) (calls s) c); simpl;
        [reflexivity | apply monitorWrite_not_report].
    + apply monitorWrite_not_report.
  - unfold autoscalerReport, reconcileHPA. unfold_client.
    unfold trace_of; cbn beta.
    destruct (helper.HPADisabled _); simpl.
    + destruct (reconcilers.Exists (nobjMngr (self s)) KHPA) eqn:Hex; simpl;
        rewrite ?Hex; simpl; rewrite <- ?app_assoc, drop_app_length.
      * exists [CDelete (OHPA (hpa (owned (self s))))]. split; reflexivity.
      * exists []. split; reflexivity.
    + destruct (reconcilers.Exists (nobjMngr (self s)) KHPA); simpl.
      * destruct (AutoScalerChanged env _ _ _) as [[|] report]; simpl;
          rewrite <- ?app_assoc, drop_app_length.
        -- exists [CUpdateOwned (OHPA (hpa (owned (self s))))
                     (OHPA (Builder.autoScaler builder))]. split; reflexivity.
        -- exists []. split; reflexivity.
      * rewrite <- ?app_assoc, drop_app_length.
        exists [CCreateOwned (OHPA (Builder.autoScaler builder))].
        split; reflexivity.
Qed.

(** ** The service step and the service monitor *)

(** When the write for the service itself fails, [reconcileService]
    returns that error and the service monitor is not reconciled, even
    on a cluster that supports it. *)
Theorem reconcileService_failure_skips_monitor
    (env : Env) (builder : Builder.t) (desired : flowslatest.FlowCollectorSpec)
    (s : St) (c : Call) (e : error)
    (Hwrite : serviceWrite builder desired s = Some c)
    (Hfails : writeReply (cluster env) (calls s) c = Some e) :
  returned (reconcileService env builder desired) s = Some e /\
  count (touches KServiceMonitor) (trace_of (reconcileService env builder desired) s)
  = 0%nat /\
  exists report,
    trace_of (reconcileService env builder desired) s = [c; CLogIfNeeded report].
Proof.
  revert Hwrite. unfold serviceWrite, reconcileService, serviceNeedsUpdate.
  unfold_client. unfold trace_of, returned; cbn beta.
  destruct (negb (reconcilers.Exists _ _)); simpl.
  - intros Hc. inversion Hc; subst c. simpl. rewrite Hfails. simpl.
    rewrite <- app_assoc, drop_app_length. simpl.
    split; [reflexivity|]. split; [reflexivity|]. eexists; reflexivity.
  - destruct (portMatches _ _); [discriminate|]. simpl.
    intros Hc. inversion Hc; subst c. simpl. rewrite Hfails. simpl.
    rewrite <- app_assoc, drop_app_length. simpl.
    split; [reflexivity|]. split; [reflexivity|]. eexists; reflexivity.
Qed.

Lemma reconcileService_failure_skips_monitor_witness :
  returned
    (reconcileService
       (Sample.envOf (Sample.clusterOf Sample.absent (Some (ErrOther "quota"))))
       Sample.builder (flowslatest.Spec (Sample.desired true 1 9001 "DISABLED")))
    (Sample.fetched (Sample.clusterOf Sample.absent (Some (ErrOther "quota"))) true)
  = Some (ErrOther "quota") /\
  discover.HasSvcMonitor
    (availableAPIs
       (self (Sample.fetched
                (Sample.clusterOf Sample.absent (Some (ErrOther "quota"))) true)))
  = true.
Proof.
  split; [|reflexivity].
  apply (reconcileService_failure_skips_monitor
           (Sample.envOf (Sample.clusterOf Sample.absent (Some (ErrOther "quota"))))
           Sample.builder (flowslatest.Spec (Sample.desired true 1 9001 "DISABLED"))
           (Sample.fetched (Sample.clusterOf Sample.absent (Some (ErrOther "quota")))
              true)
           (CCreateOwned (OService Sample.svc)) (ErrOther "quota")
           eq_refl eq_refl).
Defined.

(** On a cluster without service monitors the service step writes at
    most the service: its calls are the service write, if one is due,
    and the report. *)
Theorem reconcileService_without_monitor
    (env : Env) (builder : Builder.t) (desired : flowslatest.FlowCollectorSpec)
    (s : St)
    (Hunsupported : discover.HasSvcMonitor (availableAPIs (self s)) = false) :
  exists report,
    trace_of (reconcileService env builder desired) s
    = match serviceWrite builder desired s with
      | Some c => [c]
      | None => []
      end ++ [CLogIfNeeded report] /\
    returned (reconcileService env builder desired) s
    = match serviceWrite builder desired s with
      | Some c => writeReply (cluster env) (calls s) c
      | None => None
      end.
Proof.
  unfold serviceWrite, reconcileService, serviceNeedsUpdate.
  unfold_client. unfold trace_of, returned; cbn beta.
  rewrite Hunsupported.
  destruct (negb (reconcilers.Exists _ _)); simpl.
  - destruct (writeReply _ _ _); simpl; eexists;
      rewrite <- app_assoc, drop_app_length; split; reflexivity.
  - destruct (portMatches _ _); simpl.
    + eexists. rewrite drop_app_length. split; reflexivity.
    + destruct (writeReply _ _ _); simpl; eexists;
        rewrite <- app_assoc, drop_app_length; split; reflexivity.
Qed.

Lemma reconcileService_without_monitor_witness :
  exists report,
    trace_of
      (reconcileService
         (Sample.envOf (Sample.clusterOf (Sample.present []) None))
         Sample.builder (flowslatest.Spec (Sample.desired true 1 9001 "DISABLED")))
      (Sample.fetched (Sample.clusterOf (Sample.present []) None) false)
    = [CLogIfNeeded report].
Proof.
  destruct (reconcileService_without_monitor
              (Sample.envOf (Sample.clusterOf (Sample.present []) None))
              Sample.builder (flowslatest.Spec (Sample.desired true 1 9001 "DISABLED"))
              (Sample.fetched (Sample.clusterOf (Sample.present []) None) false)
              eq_refl) as (report & Htr & _).
  exists report. exact Htr.
Defined.

(** ** The autoscaler step with autoscaling enabled *)

(** With autoscaling enabled [reconcileHPA] never deletes and makes at
    most one write: a create when the autoscaler is absent, an update
    when the comparator says changed, nothing otherwise; it returns the
    outcome of that write. *)
Theorem reconcileHPA_enabled
    (env : Env) (builder : Builder.t) (desired : flowslatest.FlowCollectorSpec)
    (s : St)
    (Henabled : helper.HPADisabled
                  (flowslatest.Autoscaler (flowslatest.ConsolePlugin desired))
                = false) :
  exists (write : option Call) (report : helper.ChangeReport),
    write
    = (if negb (reconcilers.Exists (nobjMngr (self s)) KHPA)
       then Some (CCreateOwned (OHPA (Builder.autoScaler builder)))
       else if (AutoScalerChanged env (hpa (owned (self s)))
                  (flowslatest.Autoscaler (flowslatest.ConsolePlugin desired))
                  (helper.NewChangeReport "Console autoscaler")).1
       then Some (CUpdateOwned (OHPA (hpa (owned (self s))))
                    (OHPA (Builder.autoScaler builder)))
       else None) /\
    trace_of (reconcileHPA env builder desired) s
    = match write with Some c => [c] | None => [] end ++ [CLogIfNeeded report] /\
    returned (reconcileHPA env builder desired) s
    = match write with
      | Some c => writeReply (cluster env) (calls s) c
      | None => None
      end /\
    count (isDelete KHPA) (trace_of (reconcileHPA env builder desired) s) = 0%nat.
Proof.
  unfold reconcileHPA. unfold_client. unfold trace_of, returned; cbn beta.
  rewrite Henabled.
  destruct (negb (reconcilers.Exists _ _)); simpl.
  - eexists; eexists. split; [reflexivity|].
    rewrite <- app_assoc, drop_app_length. simpl. repeat split; reflexivity.
  - destruct (AutoScalerChanged env _ _ _) as [[|] report]; simpl.
    + eexists; eexists. split; [reflexivity|].
      rewrite <- app_assoc, drop_app_length. simpl. repeat split; reflexivity.
    + eexists; eexists. split; [reflexivity|].
      rewrite drop_app_length. simpl. repeat split; reflexivity.
Qed.

Lemma reconcileHPA_enabled_witness :
  count (isDelete KHPA)
    (trace_of
       (reconcileHPA (Sample.envOf (Sample.clusterOf (Sample.present []) None))
          Sample.builder (flowslatest.Spec (Sample.desired true 1 9001 "ENABLED")))
       (Sample.fetched (Sample.clusterOf (Sample.present []) None) false))
  = 0%nat.
Proof.
  destruct (reconcileHPA_enabled
              (Sample.envOf (Sample.clusterOf (Sample.present []) None))
              Sample.builder (flowslatest.Spec (Sample.desired true 1 9001 "ENABLED"))
              (Sample.fetched (Sample.clusterOf (Sample.present []) None) false)
              eq_refl) as (write & report & _ & _ & _ & H).
  exact H.
Defined.

(** ** What a pass never does *)

Lemma steps_passDiscipline env desired r :
  Forall (stepSpec (fun _ => True) passDiscipline) (stepsOf env desired r).
Proof.
  unfold stepsOf. forall_steps.
  - apply stepSpec_FetchAll; [auto|]. intros r' _.
    apply Forall_forall. intros mo _. exact Logic.I.
  - unfold checkAutoPatch, Update, LogError.
    step_spec; first [exact Logic.I | reflexivity].
  - unfold reconcilePermissions, CreateOwned, ReconcileClusterRole,
      ReconcileClusterRoleBinding.
    step_spec; first [exact Logic.I | discriminate].
  - unfold reconcilePlugin, CreateOwned, UpdateOwned.
    step_spec; first [exact Logic.I | discriminate | split; [reflexivity | discriminate]].
  - unfold reconcileConfigMap, CreateOwned, UpdateOwned.
    step_spec; first [exact Logic.I | discriminate | split; [reflexivity | discriminate]].
  - unfold reconcileDeployment, deferLogIfNeeded, CreateOwned, UpdateOwned,
      CheckDeploymentInProgress, LogIfNeeded.
    step_spec; first [exact Logic.I | discriminate | split; [reflexivity | discriminate]].
  - unfold reconcileService, deferLogIfNeeded, GenericReconcile, CreateOwned,
      UpdateOwned, LogIfNeeded.
    step_spec; first [exact Logic.I | discriminate | split; [reflexivity | discriminate]].
  - unfold reconcileHPA, deferLogIfNeeded, TryDelete, CreateOwned, UpdateOwned,
      Delete, LogIfNeeded.
    step_spec;
      first [exact Logic.I | reflexivity | discriminate
            | split; [reflexivity | discriminate]].
Qed.

(** Whatever the cluster answers, a pass deletes nothing but the
    autoscaler, updates directly nothing but the Console resource, never
    writes the Console resource as an owned object, and every owned
    update replaces an object by one of the same kind. *)
Theorem Reconcile_call_discipline
    (env : Env) (desired : flowslatest.FlowCollector) (s : St) :
  Forall passDiscipline (trace_of (Reconcile env desired) s).
Proof.
  replace (trace_of (Reconcile env desired) s)
    with (trace_of (runSteps (stepsOf env desired (self s))) s)
    by (unfold trace_of; rewrite Reconcile_runSteps; reflexivity).
  apply (stepSpec_trace (fun _ => True)); [|exact Logic.I].
  apply stepSpec_runSteps, steps_passDiscipline.
Qed.

Lemma steps_notDelete env desired r :
  helper.HPADisabled
    (flowslatest.Autoscaler (flowslatest.ConsolePlugin (flowslatest.Spec desired)))
  = false ->
  Forall (stepSpec (fun _ => True) notDelete) (stepsOf env desired r).
Proof.
  intros Hen. unfold stepsOf. forall_steps.
  - apply stepSpec_FetchAll; [auto|]. intros r' _.
    apply Forall_forall. intros mo _. exact Logic.I.
  - unfold checkAutoPatch, Update, LogError. step_spec; exact Logic.I.
  - unfold reconcilePermissions, CreateOwned, ReconcileClusterRole,
      ReconcileClusterRoleBinding. step_spec; exact Logic.I.
  - unfold reconcilePlugin, CreateOwned, UpdateOwned. step_spec; exact Logic.I.
  - unfold reconcileConfigMap, CreateOwned, UpdateOwned. step_spec; exact Logic.I.
  - unfold reconcileDeployment, deferLogIfNeeded, CreateOwned, UpdateOwned,
      CheckDeploymentInProgress, LogIfNeeded.
    step_spec; exact Logic.I.
  - unfold reconcileService, deferLogIfNeeded, GenericReconcile, CreateOwned,
      UpdateOwned, LogIfNeeded.
    step_spec; exact Logic.I.
  - unfold reconcileHPA, deferLogIfNeeded. rewrite Hen.
    unfold CreateOwned, UpdateOwned, LogIfNeeded.
    step_spec; exact Logic.I.
Qed.

(** With autoscaling enabled in the desired specification a pass deletes
    nothing at all. *)
Theorem Reconcile_enabled_never_deletes
    (env : Env) (desired : flowslatest.FlowCollector) (s : St)
    (Henabled : helper.HPADisabled
                  (flowslatest.Autoscaler
                     (flowslatest.ConsolePlugin (flowslatest.Spec desired)))
                = false) :
  Forall notDelete (trace_of (Reconcile env desired) s).
Proof.
  replace (trace_of (Reconcile env desired) s)
    with (trace_of (runSteps (stepsOf env desired (self s))) s)
    by (unfold trace_of; rewrite Reconcile_runSteps; reflexivity).
  apply (stepSpec_trace (fun _ => True)); [|exact Logic.I].
  apply stepSpec_runSteps, steps_notDelete. exact Henabled.
Qed.

Lemma Reconcile_enabled_never_deletes_witness :
  Forall notDelete
    (trace_of
       (Reconcile (Sample.envOf (Sample.clusterOf (Sample.present []) None))
          (Sample.desired true 1 9001 "ENABLED"))
       (Sample.start (Sample.clusterOf (Sample.present []) None) true)).
Proof.
  apply (Reconcile_enabled_never_deletes
           (Sample.envOf (Sample.clusterOf (Sample.present []) None))
           (Sample.desired true 1 9001 "ENABLED")
           (Sample.start (Sample.clusterOf (Sample.present []) None) true)
           eq_refl).
Defined.

(** ** The registration side channel: one read, at most one more call *)

(** Every run of [checkAutoPatch] starts by reading the Console resource
    named "cluster" and makes at most one more call: a log line when the
    read failed, or an update of the resource that was read, with its
    metadata unchanged. *)
Theorem checkAutoPatch_calls
    (env : Env) (desired : flowslatest.FlowCollector) (s : St) :
  exists rest,
    trace_of (checkAutoPatch env desired) s = CGet KConsole "" "cluster" :: rest /\
    (length rest <= 1)%nat /\
    Forall (fun c =>
              match getReply (cluster env) KConsole (calls s) "" "cluster" with
              | Failed err => c = CLogError err registerManually
              | Ok console =>
                  exists plugins,
                    c = CUpdate (OConsole
                                   {| operatorsv1.ConsoleMeta :=
                                        operatorsv1.ConsoleMeta console;
                                      operatorsv1.Plugins := plugins |})
              end) rest.
Proof.
  destruct (getReply (cluster env) KConsole (calls s) "" "cluster")
    as [console|err] eqn:Hget.
  - unfold trace_of.
    rewrite (checkAutoPatch_reachable env desired s console Hget). cbv zeta.
    unfold Update, write, record.
    destruct (flowslatest.Register _ && negb _); simpl.
    + eexists. rewrite <- app_assoc, drop_app_length.
      split; [reflexivity|]. split; [simpl; lia|].
      apply Forall_cons. split; [eexists; reflexivity | apply Forall_nil_2].
    + destruct (negb (flowslatest.Register _) && _); simpl.
      * eexists. rewrite <- app_assoc, drop_app_length.
        split; [reflexivity|]. split; [simpl; lia|].
        apply Forall_cons. split; [eexists; reflexivity | apply Forall_nil_2].
      * exists []. rewrite drop_app_length.
        split; [reflexivity|]. split; [simpl; lia | apply Forall_nil_2].
  - destruct (checkAutoPatch_unreachable env desired s err Hget) as [_ Htr].
    rewrite Htr. eexists. split; [reflexivity|].
    destruct (flowslatest.Register _); simpl.
    + split; [lia|]. apply Forall_cons. split; [reflexivity | apply Forall_nil_2].
    + split; [lia | apply Forall_nil_2].
Qed.

(** ** A pass in the steady state *)






(** ** The registration converges *)

Lemma ContainsString_app (l1 l2 : list string) (s : string) :
  helper.ContainsString (l1 ++ l2) s
  = helper.ContainsString l1 s || helper.ContainsString l2 s.
Proof.
  induction l1 as [|x l1 IH]; simpl; [reflexivity|].
  destruct (String.eqb x s); [reflexivity | exact IH].
Qed.

(** The list that [checkAutoPatch] writes is one it leaves alone: when a
    later run reads back the Console resource it wrote, that run writes
    nothing. *)
Theorem checkAutoPatch_converges
    (env : Env) (desired : flowslatest.FlowCollector) (s s' : St)
    (console written : operatorsv1.Console)
    (Hread : getReply (cluster env) KConsole (calls s) "" "cluster" = Ok console)
    (Hwrote : trace_of (checkAutoPatch env desired) s
              = [CGet KConsole "" "cluster"; CUpdate (OConsole written)])
    (Hreread : getReply (cluster env) KConsole (calls s') "" "cluster" = Ok written) :
  trace_of (checkAutoPatch env desired) s' = [CGet KConsole "" "cluster"] /\
  returned (checkAutoPatch env desired) s' = None.
Proof.
  revert Hwrote. unfold trace_of, returned.
  rewrite (checkAutoPatch_reachable env desired s console Hread).
  rewrite (checkAutoPatch_reachable env desired s' written Hreread).
  cbv zeta. unfold Update, write, record.
  destruct (flowslatest.Register _) eqn:Hreg; simpl.
  - destruct (helper.ContainsString (operatorsv1.Plugins console) _) eqn:Hin; simpl.
    + rewrite drop_app_length. discriminate.
    + rewrite <- app_assoc, drop_app_length. intros Hw.
      inversion Hw; subst written. simpl.
      rewrite ContainsString_app, Hin. simpl. rewrite String.eqb_refl. simpl.
      rewrite drop_app_length. split; reflexivity.
  - destruct (helper.ContainsString (operatorsv1.Plugins console) _) eqn:Hin; simpl.
    + rewrite <- app_assoc, drop_app_length. intros Hw.
      inversion Hw; subst written. simpl.
      rewrite (proj2 (ContainsString_false _ _) (RemoveAllStrings_gone _ _)).
      simpl. rewrite drop_app_length. split; reflexivity.
    + rewrite drop_app_length. discriminate.
Qed.

(** Two runs in a row: the first unregisters, the second writes nothing. *)
Lemma checkAutoPatch_converges_witness :
  trace_of
    (checkAutoPatch (Sample.envOf Sample.rereads)
       (Sample.desired false 1 9001 "DISABLED"))
    (checkAutoPatch (Sample.envOf Sample.rereads)
       (Sample.desired false 1 9001 "DISABLED")
       (Sample.start Sample.rereads false)).2
  = [CGet KConsole "" "cluster"].
Proof.
  apply (checkAutoPatch_converges
           (Sample.envOf Sample.rereads)
           (Sample.desired false 1 9001 "DISABLED")
           (Sample.start Sample.rereads false)
           (checkAutoPatch (Sample.envOf Sample.rereads)
              (Sample.desired false 1 9001 "DISABLED")
              (Sample.start Sample.rereads false)).2
           (Sample.console ["netobserv-plugin"; "other"; "netobserv-plugin"])
           (Sample.console ["other"])
           eq_refl eq_refl eq_refl).
Defined.
